(** * A shallow embedding of the stress-test engine of [main.py]

    The engine consists of three functions of [main.py]:
    - [fetch_with_metrics] (lines 139-161), the request executor;
    - [run_load_test] (lines 163-172), the load runner;
    - [process_and_display_results] (lines 200-392), of which the
      computation of the summary metrics is embedded (the calls that
      only draw widgets and charts, and the count of status codes that
      feeds the pie chart, are left out).

    Python values that the engine stores in its result dictionaries are
    embedded as [pyval]; a result dictionary is a [gmap string pyval].
    Python floats are embedded as exact rationals ([Q]): rounding is not
    part of the model.  Time is an explicit clock threaded through the
    coroutines, and exceptions are an explicit outcome. *)

From Stdlib Require Import ZArith QArith Qminmax String List Sorted Permutation
  Lia Lqa.
From stdpp Require Import gmap strings list fin_maps.

Local Open Scope string_scope.
Local Open Scope Q_scope.

(** ** Python values and exceptions *)

Inductive pyval : Type :=
  | VNone
  | VBool (b : bool)
  | VInt (z : Z)
  | VFloat (q : Q)
  | VStr (s : string)
  | VDatetime (instant : Q).

(** The classes of exception the engine can meet.  All of them derive
    from [Exception]; [TimeoutError] is [asyncio.TimeoutError].  The
    program never cancels a task, so cancellation is not modelled. *)
Inductive exn_class : Type :=
  | TimeoutError
  | ClientError
  | TypeError
  | StatisticsError
  | ValueError
  | KeyError
  | IndexError.

(** An exception object: its class and [str(e)]. *)
Inductive exn : Type := Exn (cls : exn_class) (msg : string).

Inductive outcome (A : Type) : Type :=
  | Returned (a : A)
  | Raised (e : exn).
Arguments Returned {A} a.
Arguments Raised {A} e.

(** A result dictionary, as built by the dict literals of lines 151-161. *)
Abbreviation dict := (gmap string pyval).

(** [d.get(k)]: the value, or [None] when the key is missing. *)
Definition dict_get (d : dict) (k : string) : pyval :=
  match d !! k with Some v => v | None => VNone end.

(** [d.get(k, dflt)]. *)
Definition dict_get_default (d : dict) (k : string) (dflt : pyval) : pyval :=
  match d !! k with Some v => v | None => dflt end.

(** [v is not None]. *)
Definition is_not_None (v : pyval) : bool :=
  match v with VNone => false | _ => true end.

(** Truth value of a Python object, as tested by [if]. *)
Definition truthy (v : pyval) : bool :=
  match v with
  | VNone => false
  | VBool b => b
  | VInt z => negb (z =? 0)%Z
  | VFloat q => negb (Qeq_bool q 0)
  | VStr s => negb (String.eqb s "")
  | VDatetime _ => true
  end.

(** ** Coroutines: a clock and an outcome

    A coroutine is run from an instant of the monotonic clock (seconds)
    and yields an outcome and the instant at which it finishes. *)

Definition io (A : Type) : Type := Q -> outcome A * Q.

Definition ret {A} (a : A) : io A := fun t => (Returned a, t).

Definition bind {A B} (c : io A) (k : A -> io B) : io B :=
  fun t =>
    match c t with
    | (Returned a, t') => k a t'
    | (Raised e, t') => (Raised e, t')
    end.

(** [try: body except ... as e: handler e]. *)
Definition try_except {A} (body : io A) (handler : exn -> io A) : io A :=
  fun t =>
    match body t with
    | (Returned a, t') => (Returned a, t')
    | (Raised e, t') => handler e t'
    end.

Notation "x <- c ;; k" := (bind c (fun x => k))
  (at level 100, c at next level, right associativity).
Notation "c ;;; k" := (bind c (fun _ => k))
  (at level 100, right associativity).

(** ** The world outside the engine

    What the libraries the engine calls do is fixed by a [world]: how
    late the event loop wakes a sleeping task, what the server does with
    a request, and the offset between the wall clock and the monotonic
    one. *)

Inductive server_behaviour : Type :=
  | Responds (status : Z) (body : string) (t_headers t_body : Q)
      (* headers [t_headers] seconds after the call of [session.get],
         the wait for one of the connections of the pool included; the
         body [t_body] later *)
  | Breaks (e : exn) (after : Q)
      (* the exchange fails with [e] after [after] seconds
         (DNS failure, connection refused, malformed response, ...) *)
  | Silent.
      (* no answer at all *)

Record world : Type := {
  loop_lag : Q;
  server : string -> server_behaviour;
  wall_offset : Q
}.

(** The response object bound by [async with session.get(...) as response]. *)
Record response : Type := {
  resp_status : Z;
  resp_body : string;
  resp_body_time : Q;
  resp_deadline : Q  (* instant at which the total timeout fires *)
}.

(** [time.perf_counter()]. *)
Definition perf_counter : io Q := fun t => (Returned t, t).

(** [datetime.now()]. *)
Definition datetime_now (w : world) : io pyval :=
  fun t => (Returned (VDatetime (wall_offset w + t)), t).

(** [await asyncio.sleep(seconds)]: suspends the task, never raises. *)
Definition asyncio_sleep (w : world) (seconds : Q) : io unit :=
  fun t => (Returned tt, t + seconds + loop_lag w).

(** [session.get(url, timeout=aiohttp.ClientTimeout(total=timeout))]:
    the total budget starts when the request is issued and covers the
    whole exchange, reading of the body included.  The budget is that of
    a positive [timeout], the only kind the form of line 113 gives (1 to
    30): aiohttp arms no timer for a total of 0. *)
Definition session_get (w : world) (url : string) (timeout : Z) : io response :=
  fun t =>
    let budget := inject_Z timeout in
    match server w url with
    | Responds status body t_headers t_body =>
        if Qle_bool t_headers budget
        then (Returned {| resp_status := status; resp_body := body;
                          resp_body_time := t_body;
                          resp_deadline := t + budget |}, t + t_headers)
        else (Raised (Exn TimeoutError ""), t + budget)
    | Breaks e after =>
        if Qle_bool after budget
        then (Raised e, t + after)
        else (Raised (Exn TimeoutError ""), t + budget)
    | Silent => (Raised (Exn TimeoutError ""), t + budget)
    end.

(** [await response.text()]. *)
Definition response_text (r : response) : io string :=
  fun t =>
    if Qle_bool (t + resp_body_time r) (resp_deadline r)
    then (Returned (resp_body r), t + resp_body_time r)
    else (Raised (Exn TimeoutError ""), resp_deadline r).

(** ** The request executor (lines 139-161) *)

Definition fetch_with_metrics (w : world) (url : string) (timeout delay : Z)
  : io dict :=
  start_time <- perf_counter ;;
  try_except
    ((if (0 <? delay)%Z
      then asyncio_sleep w (inject_Z delay / 1000)
      else ret tt) ;;;
     response <- session_get w url timeout ;;
     content <- response_text response ;;
     end_time <- perf_counter ;;
     now <- datetime_now w ;;
     ret (list_to_map
            [ ("status", VInt (resp_status response));
              ("response_time", VFloat ((end_time - start_time) * 1000));
              ("content_length", VInt (Z.of_nat (String.length content)));
              ("success", VBool ((200 <=? resp_status response)%Z
                                 && (resp_status response <? 300)%Z));
              ("timestamp", now) ] : dict))
    (fun e =>
       match e with
       | Exn TimeoutError _ =>
           ret (list_to_map
                  [ ("status", VStr "timeout");
                    ("response_time", VInt (timeout * 1000));
                    ("success", VBool false);
                    ("error", VStr "Timeout") ] : dict)
       | Exn _ msg =>
           ret (list_to_map
                  [ ("status", VStr "error");
                    ("response_time", VNone);
                    ("success", VBool false);
                    ("error", VStr msg) ] : dict)
       end).

(** ** The load runner (lines 163-172) *)

(** An element of the list [asyncio.gather(..., return_exceptions=True)]
    returns: what the task returned, or the exception it raised. *)
Inductive gathered : Type :=
  | GDict (d : dict)
  | GExc (e : exn).

Definition gathered_of (o : outcome dict) : gathered :=
  match o with Returned d => GDict d | Raised e => GExc e end.

(** [await asyncio.gather] over the unpacked [tasks], with
    [return_exceptions=True]: every task
    runs from the instant of the call on its own timeline; the call
    resumes when the last of them has finished, with one element per
    task, in the order of [tasks].  What one task costs another (a
    request waiting for a connection of the pool) is not computed here:
    it is part of the times the world of each task gives. *)
Definition asyncio_gather (tasks : list (io dict)) : io (list gathered) :=
  fun t =>
    (Returned (map (fun task => gathered_of (fst (task t))) tasks),
     fold_right (fun task latest => Qmax (snd (task t)) latest) t tasks).

(** [range(n)]. *)
Definition py_range (n : Z) : list nat := seq 0 (Z.to_nat n).

(** [env i] is the world the [i]-th task lives in.  The connector of
    line 167, with its pool of at most 100 connections, and the session
    of line 168 are not objects of the model: their setup is taken to
    succeed, and the wait for a connection is part of the times [env]
    gives. *)
Definition run_load_test (env : nat -> world) (url : string)
    (concurrent_users requests_per_user timeout delay : Z)
  : io (list gathered) :=
  let tasks :=
    map (fun i => fetch_with_metrics (env i) url timeout delay)
        (py_range (concurrent_users * requests_per_user)) in
  asyncio_gather tasks.

(** ** Computations that may raise, without a clock *)

Definition obind {A B} (c : outcome A) (k : A -> outcome B) : outcome B :=
  match c with
  | Returned a => k a
  | Raised e => Raised e
  end.

Notation "x <~ c ;; k" := (obind c (fun x => k))
  (at level 100, c at next level, right associativity).

Fixpoint traverse {A B} (f : A -> outcome B) (l : list A) : outcome (list B) :=
  match l with
  | [] => Returned []
  | x :: l' => y <~ f x ;; ys <~ traverse f l' ;; Returned (y :: ys)
  end.

(** ** Builtins on lists of numbers *)

(** [l[k]], with Python's negative indices. *)
Definition py_index {A} (l : list A) (k : Z) : outcome A :=
  let pos := if (k <? 0)%Z then (Z.of_nat (length l) + k)%Z else k in
  if (pos <? 0)%Z then Raised (Exn IndexError "list index out of range")
  else match nth_error l (Z.to_nat pos) with
       | Some x => Returned x
       | None => Raised (Exn IndexError "list index out of range")
       end.

(** [d[k]]. *)
Definition dict_item (d : dict) (k : string) : outcome pyval :=
  match d !! k with
  | Some v => Returned v
  | None => Raised (Exn KeyError k)
  end.

(** A value as a number; [bool] is a subclass of [int].  The
    [statistics] module raises [TypeError] on anything else. *)
Definition as_number (v : pyval) : outcome Q :=
  match v with
  | VInt z => Returned (inject_Z z)
  | VFloat q => Returned q
  | VBool b => Returned (if b then 1 else 0)
  | _ => Raised (Exn TypeError "can't convert type to numerator/denominator")
  end.

Fixpoint insert_sorted (x : Q) (l : list Q) : list Q :=
  match l with
  | [] => [x]
  | y :: l' => if Qle_bool x y then x :: y :: l' else y :: insert_sorted x l'
  end.

(** [sorted(data)] (stable). *)
Definition py_sorted (data : list Q) : list Q :=
  fold_right insert_sorted [] data.

(** [max(data)]: the first of the largest elements. *)
Definition py_max (data : list Q) : outcome Q :=
  match data with
  | [] => Raised (Exn ValueError "max() arg is an empty sequence")
  | x :: l => Returned (fold_left (fun m y => if Qle_bool y m then m else y) l x)
  end.

(** [min(data)]: the first of the smallest elements. *)
Definition py_min (data : list Q) : outcome Q :=
  match data with
  | [] => Raised (Exn ValueError "min() arg is an empty sequence")
  | x :: l => Returned (fold_left (fun m y => if Qle_bool m y then m else y) l x)
  end.

Definition py_sum (data : list Q) : Q := fold_left Qplus data 0.

Definition Q_of_nat (n : nat) : Q := inject_Z (Z.of_nat n).

(** ** The [statistics] module (CPython 3.11) *)

Definition mean (data : list Q) : outcome Q :=
  if (length data <? 1)%nat
  then Raised (Exn StatisticsError "mean requires at least one data point")
  else Returned (py_sum data / Q_of_nat (length data)).

Definition median (data : list Q) : outcome Q :=
  let data := py_sorted data in
  let n := Z.of_nat (length data) in
  if (n =? 0)%Z then Raised (Exn StatisticsError "no median for empty data")
  else if (n mod 2 =? 1)%Z then py_index data (n / 2)
  else
    let i := (n / 2)%Z in
    a <~ py_index data (i - 1) ;;
    b <~ py_index data i ;;
    Returned ((a + b) / 2).

(** [range(lo, hi)]. *)
Definition py_range2 (lo hi : Z) : list Z :=
  map (fun k => (lo + Z.of_nat k)%Z) (seq 0 (Z.to_nat (hi - lo))).

(** One cut point of [quantiles(data, n=n)] with the default method
    ([exclusive]): the body of its loop, for the sorted [data].  The
    value is the exact rational; Python's float is that value rounded
    at each operation. *)
Definition cut_point (data : list Q) (n i : Z) : outcome Q :=
  let ld := Z.of_nat (length data) in
  let m := (ld + 1)%Z in
  let j := (i * m / n)%Z in
  let j := if (j <? 1)%Z then 1%Z
           else if (j >? ld - 1)%Z then (ld - 1)%Z else j in
  let delta := (i * m - j * n)%Z in
  a <~ py_index data (j - 1) ;;
  b <~ py_index data j ;;
  Returned ((a * inject_Z (n - delta) + b * inject_Z delta) / inject_Z n).

Definition quantiles (data : list Q) (n : Z) : outcome (list Q) :=
  if (n <? 1)%Z then Raised (Exn StatisticsError "n must be at least 1")
  else
    let data := py_sorted data in
    let ld := Z.of_nat (length data) in
    if (ld <? 2)%Z
    then Raised (Exn StatisticsError "must have at least two data points")
    else traverse (cut_point data n) (py_range2 1 n).

(** ** The aggregator (lines 200-392)

    What the function shows is collected in a [display] value. *)

(** The rows of the table of lines 265-274. *)
Record latency_table : Type := {
  Minimum : Q;
  Median : Q;
  P95 : Q;
  P99 : Q;
  Maximum : Q
}.

(** The kind of box an insight is shown in. *)
Inductive box : Type := st_error | st_warning | st_info | st_success.

Record summary : Type := {
  total_requests : nat;
  avg_response_time : Q;
  success_count : nat;
  success_rate : Q;
  throughput : Q;
  latency_sample : list Q;
  table : option latency_table;
  success_insight : box;
  speed_insight : option box
}.

Inductive display : Type :=
  | NoValidResponses       (* the [st.error] of line 208 *)
  | Summary (s : summary).

(** Line 204. *)
Definition valid_results (results : list gathered) : list dict :=
  omap (fun r =>
          match r with
          | GDict d =>
              if is_not_None (dict_get d "response_time") then Some d else None
          | GExc _ => None
          end) results.

(** Line 205. *)
Definition successful_results (valid : list dict) : list dict :=
  List.filter (fun r => truthy (dict_get_default r "success" (VBool false)))
              valid.

(** Line 212; [statistics.mean] (line 230) is the first to read the
    values as numbers. *)
Definition response_times (valid : list dict) : outcome (list Q) :=
  traverse (fun r => v <~ dict_item r "response_time" ;; as_number v) valid.

(** Line 262. *)
Definition p95_of (response_times : list Q) : outcome Q :=
  if (20 <=? length response_times)%nat
  then qs <~ quantiles response_times 100 ;; py_index qs 94
  else py_max response_times.

(** Line 263. *)
Definition p99_of (response_times : list Q) : outcome Q :=
  if (50 <=? length response_times)%nat
  then qs <~ quantiles response_times 100 ;; py_index qs 98
  else py_max response_times.

Definition is_empty {A} (l : list A) : bool :=
  match l with [] => true | _ => false end.

(** Lines 261-274. *)
Definition latency_analysis (response_times : list Q) : outcome latency_table :=
  p50 <~ median response_times ;;
  p95 <~ p95_of response_times ;;
  p99 <~ p99_of response_times ;;
  lo <~ py_min response_times ;;
  hi <~ py_max response_times ;;
  Returned {| Minimum := lo; Median := p50; P95 := p95; P99 := p99;
              Maximum := hi |}.

Definition process_and_display_results
    (results : list gathered) (total_duration : Q) : outcome display :=
  let valid_results := valid_results results in
  let successful_results := successful_results valid_results in
  if is_empty valid_results then Returned NoValidResponses
  else
    response_times <~ response_times valid_results ;;
    let success_count := length successful_results in
    let total_requests := length results in
    let success_rate :=
      if (0 <? total_requests)%nat
      then (Q_of_nat success_count / Q_of_nat total_requests) * 100
      else 0 in
    avg_response_time <~
      (if is_empty response_times then Returned 0 else mean response_times) ;;
    let throughput :=
      if Qlt_le_dec 0 total_duration
      then Q_of_nat total_requests / total_duration
      else 0 in
    table <~
      (if is_empty response_times then Returned None
       else t <~ latency_analysis response_times ;; Returned (Some t)) ;;
    let success_insight :=
      if Qlt_le_dec success_rate 95 then st_error
      else if Qlt_le_dec success_rate 99 then st_warning
      else st_success in
    speed_insight <~
      (if is_empty response_times then Returned None
       else
         avg_time <~ mean response_times ;;
         Returned (Some (if Qlt_le_dec 3000 avg_time then st_error
                         else if Qlt_le_dec 1000 avg_time then st_warning
                         else if Qlt_le_dec 500 avg_time then st_info
                         else st_success))) ;;
    Returned (Summary {|
      total_requests := total_requests;
      avg_response_time := avg_response_time;
      success_count := success_count;
      success_rate := success_rate;
      throughput := throughput;
      latency_sample := response_times;
      table := table;
      success_insight := success_insight;
      speed_insight := speed_insight |}).

(** ** Notions used to state the properties *)

(** The HTTP exchange of lines 147-148: the request and the reading of
    the body. *)
Definition http_exchange (w : world) (url : string) (timeout : Z)
  : io (response * string) :=
  response <- session_get w url timeout ;;
  content <- response_text response ;;
  ret (response, content).

(** The instant at which the request is issued, for a task started at
    [t]: after the sleep of line 145 when there is one. *)
Definition issue_instant (w : world) (delay : Z) (t : Q) : Q :=
  if (0 <? delay)%Z then t + inject_Z delay / 1000 + loop_lag w else t.

(** A result every consumer of the engine can read: a status, a
    response time (possibly [None]) and a boolean [success]. *)
Definition well_formed_result (d : dict) : bool :=
  match d !! "status", d !! "response_time", d !! "success" with
  | Some (VInt _ | VStr _), Some (VFloat _ | VInt _ | VNone), Some (VBool _) =>
      true
  | _, _, _ => false
  end.

(** The status a task reports, when it returns a result. *)
Definition status_of (r : outcome dict * Q) : option pyval :=
  match fst r with
  | Returned d => d !! "status"
  | Raised _ => None
  end.

(** The result dictionaries of lines 159 and 161. *)
Definition timeout_result (timeout : Z) : dict :=
  list_to_map
    [ ("status", VStr "timeout");
      ("response_time", VInt (timeout * 1000));
      ("success", VBool false);
      ("error", VStr "Timeout") ].

Definition error_result (msg : string) : dict :=
  list_to_map
    [ ("status", VStr "error");
      ("response_time", VNone);
      ("success", VBool false);
      ("error", VStr msg) ].

(** The result dictionary of lines 151-157, for a response of status
    [status] and body [content], [elapsed] seconds after [start_time]. *)
Definition response_result (status : Z) (content : string) (elapsed : Q)
    (now : pyval) : dict :=
  list_to_map
    [ ("status", VInt status);
      ("response_time", VFloat (elapsed * 1000));
      ("content_length", VInt (Z.of_nat (String.length content)));
      ("success", VBool ((200 <=? status)%Z && (status <? 300)%Z));
      ("timestamp", now) ].

(** The clamp of [j] to [1 .. ld-1] in the loop of [quantiles]. *)
Definition clamp_rank (ld j : Z) : Z :=
  if (j <? 1)%Z then 1%Z else if (j >? ld - 1)%Z then (ld - 1)%Z else j.

(** Linear interpolation: the point at [fraction] of the way from the
    [j]-th to the [j+1]-th smallest value of the sample (counted from 1)
    on the line through them. *)
Definition interpolate (sorted : list Q) (j : Z) (fraction : Q) : Q :=
  let a := nth (Z.to_nat (j - 1)) sorted 0 in
  let b := nth (Z.to_nat j) sorted 0 in
  a + (b - a) * fraction.

(** *** Concrete worlds *)

(** A server that answers [status] after [seconds], with an empty lag of
    the event loop. *)
Definition answering (status : Z) (seconds : Q) : world :=
  {| loop_lag := 0;
     server := fun _ => Responds status "ok" seconds 0;
     wall_offset := 0 |}.

(** A server that never answers. *)
Definition silent_world : world :=
  {| loop_lag := 0; server := fun _ => Silent; wall_offset := 0 |}.

(** A host that cannot be resolved. *)
Definition unresolvable_world : world :=
  {| loop_lag := 0;
     server := fun _ =>
       Breaks (Exn ClientError "Cannot connect to host") (1 # 100);
     wall_offset := 0 |}.

(** A result list with one element of every kind: a 200, a 500, a
    timeout, an error, and an exception object left by [gather]. *)
Definition mixed_results : list gathered :=
  [ GDict (response_result 200 "ok" (5 # 100) (VDatetime 0));
    GDict (response_result 500 "oops" (7 # 100) (VDatetime 0));
    GDict (timeout_result 1);
    GDict (error_result "Cannot connect to host");
    GExc (Exn ClientError "Session is closed") ].

(** Fifty tasks: the server answers in 100 ms, the eighth task in 200 ms. *)
Definition one_slow (i : nat) : world :=
  if (i =? 7)%nat then answering 200 (2 # 10) else answering 200 (1 # 10).

(** A latency sample of thirty values: 1 ms, 2 ms, ..., 30 ms. *)
Definition thirty_samples : list Q :=
  map (fun k => inject_Z (Z.of_nat k)) (seq 1 30).

(** The latency table shown, when one is shown. *)
Definition reported_table (o : outcome display) : option latency_table :=
  match o with
  | Returned (Summary s) => table s
  | _ => None
  end.

(** ** The rest of the engine's code *)

(** [s.startswith(prefix)]. *)
Definition startswith (s prefix : string) : bool := String.prefix prefix s.

(** The test of line 134: the URL is refused when it is empty or starts
    with neither scheme. *)
Definition url_refused (url : string) : bool :=
  negb (truthy (VStr url))
  || negb (startswith url "http://" || startswith url "https://").

(** What the page shows once the button is pressed. *)
Inductive page : Type :=
  | InvalidUrl                 (* the [st.error] of line 135 *)
  | Completed (d : display)    (* line 193 *)
  | TestFailed (msg : string). (* the [st.error] of line 196 *)

(** [run_stress_test] (lines 174-198): the run and the computations of
    the aggregator.  [asyncio.run], the progress bar and the calls that
    draw widgets and charts are left out, so [TestFailed] stands for an
    exception of the computations only.  [time.time()] is read on the
    clock of the coroutines. *)
Definition run_stress_test (env : nat -> world) (url : string)
    (concurrent_users requests_per_user timeout delay : Z) (t : Q) : page :=
  let start_time := t in
  match run_load_test env url concurrent_users requests_per_user timeout
          delay t with
  | (Returned results, end_time) =>
      match process_and_display_results results (end_time - start_time) with
      | Returned d => Completed d
      | Raised (Exn _ msg) => TestFailed msg
      end
  | (Raised (Exn _ msg), _) => TestFailed msg
  end.

(** The handler of the button (lines 133-137). *)
Definition start_stress_test (env : nat -> world) (url : string)
    (concurrent_users requests_per_user timeout delay : Z) (t : Q) : page :=
  if url_refused url then InvalidUrl
  else run_stress_test env url concurrent_users requests_per_user timeout
         delay t.

(** The estimate of the duration shown at line 124, in seconds. *)
Definition estimated_duration
    (concurrent_users requests_per_user delay : Z) : Q :=
  inject_Z (concurrent_users * requests_per_user * delay) / 1000.

(** [a == b] on the values a dictionary can have as keys: numbers
    compare by value across [bool], [int] and [float]. *)
Definition py_eq (a b : pyval) : bool :=
  match a, b with
  | VNone, VNone => true
  | VStr s, VStr s' => String.eqb s s'
  | VDatetime i, VDatetime i' => Qeq_bool i i'
  | (VBool _ | VInt _ | VFloat _), (VBool _ | VInt _ | VFloat _) =>
      match as_number a, as_number b with
      | Returned x, Returned y => Qeq_bool x y
      | _, _ => false
      end
  | _, _ => false
  end.

(** A dictionary whose keys are statuses, in the order of insertion. *)
Abbreviation counts := (list (pyval * nat)).

(** [counts.get(key, dflt)]. *)
Fixpoint counts_get (c : counts) (key : pyval) (dflt : nat) : nat :=
  match c with
  | [] => dflt
  | (k, n) :: rest => if py_eq k key then n else counts_get rest key dflt
  end.

(** [counts[key] = n]: the first key equal to [key] keeps its place. *)
Fixpoint counts_set (c : counts) (key : pyval) (n : nat) : counts :=
  match c with
  | [] => [(key, n)]
  | (k, m) :: rest =>
      if py_eq k key then (k, n) :: rest else (k, m) :: counts_set rest key n
  end.

(** Lines 282-285. *)
Definition status_counts (valid_results : list dict) : counts :=
  fold_left
    (fun status_counts result =>
       let status := dict_get_default result "status" (VStr "unknown") in
       counts_set status_counts status (counts_get status_counts status 0 + 1))
    valid_results [].

(** Lines 348-349. *)
Definition cumulative_pct (response_times : list Q) : list Q :=
  let sorted_times := py_sorted response_times in
  map (fun i => Q_of_nat (i + 1) / Q_of_nat (length sorted_times) * 100)
      (py_range (Z.of_nat (length sorted_times))).

(** *** Notions used to state the further properties *)

(** The server answers, fails or stays silent after a time that is not
    negative. *)
Definition timely (b : server_behaviour) : Prop :=
  match b with
  | Responds _ _ t_headers t_body => 0 <= t_headers /\ 0 <= t_body
  | Breaks _ after => 0 <= after
  | Silent => True
  end.

(** The result a task yields when it returns one. *)
Definition result_of (r : outcome dict * Q) : dict :=
  match fst r with
  | Returned d => d
  | Raised _ => empty
  end.

(** A world in which every request is answered with [status] after
    [seconds], the event loop being [lag] late. *)
Definition uniform_world (status : Z) (seconds lag : Q) : world :=
  {| loop_lag := lag;
     server := fun _ => Responds status "ok" seconds 0;
     wall_offset := 0 |}.

(** * Properties *)

(** ** The request executor and the load runner *)

Lemma fetch_by_exchange w url timeout delay t :
  fetch_with_metrics w url timeout delay t =
  match http_exchange w url timeout (issue_instant w delay t) with
  | (Returned (response, content), t') =>
      (Returned (response_result (resp_status response) content (t' - t)
                   (VDatetime (wall_offset w + t'))), t')
  | (Raised (Exn TimeoutError _), t') => (Returned (timeout_result timeout), t')
  | (Raised (Exn _ msg), t') => (Returned (error_result msg), t')
  end.
Proof.
  unfold fetch_with_metrics, http_exchange, issue_instant, bind, try_except,
    perf_counter, datetime_now, asyncio_sleep, ret.
  destruct (0 <? delay)%Z.
  - destruct (session_get w url timeout _) as [[r|[cls msg]] t1].
    + destruct (response_text r t1) as [[c|[cls msg]] t2]; [reflexivity|].
      destruct cls; reflexivity.
    + destruct cls; reflexivity.
  - destruct (session_get w url timeout _) as [[r|[cls msg]] t1].
    + destruct (response_text r t1) as [[c|[cls msg]] t2]; [reflexivity|].
      destruct cls; reflexivity.
    + destruct cls; reflexivity.
Qed.


Lemma body_budget_shift (t a b c : Q) :
  Qle_bool (t + a + b) (t + c) = Qle_bool (a + b) c.
Proof.
  apply eq_true_iff_eq. rewrite !Qle_bool_iff. split; intros; lra.
Qed.

(** What the exchange yields does not depend on the instant at which it
    starts, and neither does the time it takes. *)
Lemma http_exchange_instant w url timeout t t' :
  match http_exchange w url timeout t, http_exchange w url timeout t' with
  | (Returned (r, c), u), (Returned (r', c'), u') =>
      resp_status r = resp_status r' /\ c = c' /\ u - t == u' - t'
  | (Raised e, u), (Raised e', u') => e = e' /\ u - t == u' - t'
  | _, _ => False
  end.
Proof.
  unfold http_exchange, session_get, response_text, bind, ret.
  destruct (server w url) as [s b th tb|e after|]; cbn.
  - destruct (Qle_bool th (inject_Z timeout)); cbn.
    + rewrite !body_budget_shift.
      destruct (Qle_bool (th + tb) _); cbn; repeat split; try reflexivity; lra.
    + split; [reflexivity | lra].
  - destruct (Qle_bool after _); cbn; split; try reflexivity; lra.
  - split; [reflexivity | lra].
Qed.

(** C6.  The executor never raises: whatever the world does (a response,
    a timeout, any other exception), [fetch_with_metrics] returns a
    well-formed result; hence every element of the list
    [run_load_test] returns is a result dictionary, none is an exception,
    and the batch is never aborted. *)
Theorem fetch_with_metrics_never_raises :
  (forall w url timeout delay t,
     exists d, fst (fetch_with_metrics w url timeout delay t) = Returned d
               /\ well_formed_result d = true)
  /\
  (forall env url concurrent_users requests_per_user timeout delay t,
     exists results,
       fst (run_load_test env url concurrent_users requests_per_user
              timeout delay t) = Returned results
       /\ Forall (fun g => exists d, g = GDict d /\ well_formed_result d = true)
                 results).
Proof.
  assert (Hone : forall w url timeout delay t,
     exists d, fst (fetch_with_metrics w url timeout delay t) = Returned d
               /\ well_formed_result d = true).
  { intros. rewrite fetch_by_exchange.
    destruct (http_exchange _ _ _ _) as [[[r c]|[cls msg]] t'].
    - eexists; split; reflexivity.
    - destruct cls; eexists; split; reflexivity. }
  split; [exact Hone|].
  intros. eexists; split; [reflexivity|].
  apply Stdlib.Lists.List.Forall_forall. intros g Hg.
  apply in_map_iff in Hg as [task [<- Htask]].
  apply in_map_iff in Htask as [i [<- _]].
  destruct (Hone (env i) url timeout delay t) as [d [-> Hd]].
  exists d; split; [reflexivity | exact Hd].
Qed.

(** C7.  When the HTTP exchange raises, the executor returns the
    sentinel result: on [TimeoutError], status "timeout", a response
    time of [timeout * 1000], success false, error "Timeout"; on any
    other exception, status "error", a response time of [None], success
    false, and the text of the exception as error. *)
Theorem failure_sentinels w url timeout delay t cls msg :
  fst (http_exchange w url timeout (issue_instant w delay t))
    = Raised (Exn cls msg) ->
  exists d,
    fst (fetch_with_metrics w url timeout delay t) = Returned d
    /\ d !! "success" = Some (VBool false)
    /\ match cls with
       | TimeoutError =>
           d !! "status" = Some (VStr "timeout")
           /\ d !! "response_time" = Some (VInt (timeout * 1000))
           /\ d !! "error" = Some (VStr "Timeout")
       | _ =>
           d !! "status" = Some (VStr "error")
           /\ d !! "response_time" = Some VNone
           /\ d !! "error" = Some (VStr msg)
       end.
Proof.
  intros H. rewrite fetch_by_exchange.
  destruct (http_exchange _ _ _ _) as [o t']. cbn in H. subst o.
  destruct cls; eexists; (split; [reflexivity|]); repeat split.
Qed.

Lemma failure_sentinels_witness :
  exists d,
    fst (fetch_with_metrics silent_world "https://example.com" 1 0 0)
      = Returned d
    /\ d !! "success" = Some (VBool false)
    /\ d !! "status" = Some (VStr "timeout")
    /\ d !! "response_time" = Some (VInt 1000)
    /\ d !! "error" = Some (VStr "Timeout").
Proof.
  exact (failure_sentinels silent_world "https://example.com" 1 0 0
           TimeoutError "" eq_refl).
Defined.

(** On both failure paths the result has no "timestamp" key, whatever
    the world. *)
Lemma no_timestamp_on_failure w url timeout delay t e :
  fst (http_exchange w url timeout (issue_instant w delay t)) = Raised e ->
  exists d,
    fst (fetch_with_metrics w url timeout delay t) = Returned d
    /\ d !! "timestamp" = None.
Proof.
  intros H. rewrite fetch_by_exchange.
  destruct (http_exchange _ _ _ _) as [o t']. cbn in H. subst o.
  destruct e as [cls msg]. destruct cls; eexists; split; reflexivity.
Qed.

(** C9.  A request that times out and a request that fails both yield a
    result without a "timestamp" key; only the result of a received
    response has one. *)
Theorem timestamp_only_on_response :
  (exists d,
     fst (fetch_with_metrics silent_world "https://example.com" 1 0 0)
       = Returned d
     /\ d !! "status" = Some (VStr "timeout") /\ d !! "timestamp" = None)
  /\
  (exists d,
     fst (fetch_with_metrics unresolvable_world "https://example.com" 5 0 0)
       = Returned d
     /\ d !! "status" = Some (VStr "error") /\ d !! "timestamp" = None)
  /\
  (exists d,
     fst (fetch_with_metrics (answering 200 (5 # 100)) "https://example.com"
            5 0 0) = Returned d
     /\ d !! "status" = Some (VInt 200)
     /\ exists instant, d !! "timestamp" = Some (VDatetime instant)).
Proof.
  split; [|split]; eexists; (split; [reflexivity|]).
  - split; reflexivity.
  - split; reflexivity.
  - split; [reflexivity|]. eexists. reflexivity.
Qed.

(** Whenever a response is received, the recorded response time is the
    time from the start of the task to the end of the body: the sleep
    before the request is part of it. *)
Lemma response_time_counts_delay w url timeout delay t status body th tb :
  server w url = Responds status body th tb ->
  th <= inject_Z timeout -> th + tb <= inject_Z timeout ->
  exists d q,
    fst (fetch_with_metrics w url timeout delay t) = Returned d
    /\ d !! "status" = Some (VInt status)
    /\ d !! "response_time" = Some (VFloat q)
    /\ q == ((issue_instant w delay t - t) + (th + tb)) * 1000
    /\ ((0 < delay)%Z ->
        issue_instant w delay t - t == inject_Z delay / 1000 + loop_lag w).
Proof.
  intros Hsrv Hh Hb. rewrite fetch_by_exchange.
  unfold http_exchange, session_get, response_text, bind, ret.
  rewrite Hsrv. cbn.
  apply Qle_bool_iff in Hh. rewrite Hh. cbn.
  rewrite body_budget_shift.
  apply Qle_bool_iff in Hb. rewrite Hb. cbn.
  eexists. eexists. split; [reflexivity|]. split; [reflexivity|].
  split; [reflexivity|]. split; [ring|].
  intros Hd. unfold issue_instant.
  destruct (Z.ltb_spec 0 delay); [ring | lia].
Qed.

(** C2.  With a delay of 100 ms before a request that the server answers
    in 50 ms, the executor records a [response_time] of 150 ms: the
    timer is started before the sleep of line 145, so the delay counts
    toward the measured time, while the exchange itself took 50 ms. *)
Theorem response_time_includes_delay :
  let w := answering 200 (5 # 100) in
  let url := "https://example.com" in
  exists d q,
    fst (fetch_with_metrics w url 5 100 0) = Returned d
    /\ d !! "response_time" = Some (VFloat q)
    /\ q == 150
    /\ (snd (http_exchange w url 5 (issue_instant w 100 0))
        - issue_instant w 100 0) * 1000 == 50.
Proof.
  cbv zeta. eexists; eexists. split; [reflexivity|].
  split; [vm_compute; reflexivity|]. split; vm_compute; reflexivity.
Qed.

(** C10.  The status a task reports does not depend on the delay: the
    sleep before the request cannot turn an execution into a timeout.
    And an execution can last longer than the timeout (a delay of one
    second, an answer after half a second, a timeout of one second)
    without being reported as one. *)
Theorem timeout_budget_excludes_delay :
  (forall w url timeout delay t,
     status_of (fetch_with_metrics w url timeout delay t)
     = status_of (fetch_with_metrics w url timeout 0 t))
  /\
  (exists w url timeout delay t d t',
     fetch_with_metrics w url timeout delay t = (Returned d, t')
     /\ inject_Z timeout < t' - t
     /\ d !! "status" = Some (VInt 200)).
Proof.
  split.
  - intros. unfold status_of. rewrite !fetch_by_exchange.
    pose proof (http_exchange_instant w url timeout
                  (issue_instant w delay t) (issue_instant w 0 t)) as H.
    destruct (http_exchange w url timeout (issue_instant w delay t))
      as [[[r c]|[cls msg]] u];
    destruct (http_exchange w url timeout (issue_instant w 0 t))
      as [[[r' c']|[cls' msg']] u']; try contradiction.
    + destruct H as [-> _]. reflexivity.
    + destruct H as [H _]. inversion H; subst. destruct cls'; reflexivity.
  - exists (answering 200 (1 # 2)), "https://example.com", 1%Z, 1000%Z, 0.
    eexists; eexists. split; [reflexivity|]. split; vm_compute; reflexivity.
Qed.

(** C1.  For every configuration with a non-negative number of
    executions, [run_load_test] returns a list whose length is
    [concurrent_users * requests_per_user], and its [i]-th element is
    what the [i]-th dispatched execution yielded: one element per
    execution. *)
Theorem run_load_test_length env url concurrent_users requests_per_user
    timeout delay t :
  (0 <= concurrent_users * requests_per_user)%Z ->
  exists results,
    fst (run_load_test env url concurrent_users requests_per_user
           timeout delay t) = Returned results
    /\ Z.of_nat (length results) = (concurrent_users * requests_per_user)%Z
    /\ forall i, (i < length results)%nat ->
         nth_error results i
         = Some (gathered_of
                   (fst (fetch_with_metrics (env i) url timeout delay t))).
Proof.
  intros Hn. eexists. split; [reflexivity|].
  unfold py_range. split.
  - rewrite !length_map, length_seq. apply Z2Nat.id, Hn.
  - intros i Hi. rewrite !length_map, length_seq in Hi.
    rewrite map_map, nth_error_map, nth_error_seq.
    destruct (Nat.ltb_spec i (Z.to_nat (concurrent_users * requests_per_user)));
      [reflexivity | lia].
Qed.

Lemma run_load_test_length_witness :
  exists results,
    fst (run_load_test (fun _ => answering 200 (5 # 100))
           "https://example.com" 10 5 10 100 0) = Returned results
    /\ Z.of_nat (length results) = 50%Z
    /\ forall i, (i < length results)%nat ->
         nth_error results i
         = Some (gathered_of
                   (fst (fetch_with_metrics (answering 200 (5 # 100))
                           "https://example.com" 10 100 0))).
Proof.
  apply (run_load_test_length (fun _ => answering 200 (5 # 100))
           "https://example.com" 10 5 10 100 0).
  vm_compute. discriminate.
Defined.

(** ** The statistics *)

Lemma length_insert_sorted x l : length (insert_sorted x l) = S (length l).
Proof.
  induction l as [|y l IH]; cbn; [reflexivity|].
  destruct (Qle_bool x y); cbn; congruence.
Qed.

Lemma length_py_sorted l : length (py_sorted l) = length l.
Proof.
  unfold py_sorted.
  induction l as [|x l IH]; cbn; [reflexivity|].
  rewrite length_insert_sorted. congruence.
Qed.

Lemma py_index_nth (l : list Q) (k : Z) :
  (0 <= k < Z.of_nat (length l))%Z ->
  py_index l k = Returned (nth (Z.to_nat k) l 0).
Proof.
  intros [H0 H1]. unfold py_index.
  destruct (Z.ltb_spec k 0); [lia|].
  destruct (Z.ltb_spec k 0); [lia|].
  destruct (nth_error l (Z.to_nat k)) eqn:E.
  - f_equal. symmetry. apply nth_error_nth. exact E.
  - apply nth_error_None in E. lia.
Qed.

Lemma traverse_map {A B} (f : A -> outcome B) (g : A -> B) (l : list A) :
  (forall x, In x l -> f x = Returned (g x)) ->
  traverse f l = Returned (map g l).
Proof.
  induction l as [|x l IH]; intros H; cbn; [reflexivity|].
  rewrite (H x (or_introl eq_refl)). cbn.
  rewrite IH; [reflexivity|]. intros y Hy. apply H. right; exact Hy.
Qed.

Lemma cut_point_value (data : list Q) (n i : Z) :
  (2 <= Z.of_nat (length data))%Z ->
  let ld := Z.of_nat (length data) in
  let j := clamp_rank ld (i * (ld + 1) / n) in
  let delta := (i * (ld + 1) - j * n)%Z in
  cut_point data n i
  = Returned ((nth (Z.to_nat (j - 1)) data 0 * inject_Z (n - delta)
               + nth (Z.to_nat j) data 0 * inject_Z delta) / inject_Z n).
Proof.
  intros Hld ld j delta. unfold cut_point.
  fold ld. change (if (i * (ld + 1) / n <? 1)%Z then 1%Z
     else if (i * (ld + 1) / n >? ld - 1)%Z then (ld - 1)%Z
          else (i * (ld + 1) / n)%Z) with j.
  assert (Hj : (1 <= j <= ld - 1)%Z).
  { unfold j, clamp_rank.
    destruct (Z.ltb_spec (i * (ld + 1) / n) 1); [lia|].
    destruct (Z.gtb_spec (i * (ld + 1) / n) (ld - 1)); lia. }
  rewrite !py_index_nth by (fold ld; lia). reflexivity.
Qed.

Lemma quantiles_value (data : list Q) (k : nat) :
  (2 <= Z.of_nat (length data))%Z -> (k < 99)%nat ->
  (qs <~ quantiles data 100 ;; py_index qs (Z.of_nat k))
  = cut_point (py_sorted data) 100 (Z.of_nat (S k)).
Proof.
  intros Hld Hk. unfold quantiles. cbn [Z.ltb Z.compare].
  change (100 <? 1)%Z with false. cbv iota.
  rewrite length_py_sorted.
  destruct (Z.ltb_spec (Z.of_nat (length data)) 2); [lia|].
  pose proof (fun i => cut_point_value (py_sorted data) 100 i) as Hcp.
  rewrite length_py_sorted in Hcp. cbv zeta in Hcp.
  erewrite traverse_map; [|intros i _; apply Hcp; exact Hld].
  cbn [obind]. rewrite Hcp by exact Hld.
  unfold py_index.
  destruct (Z.ltb_spec (Z.of_nat k) 0); [lia|].
  destruct (Z.ltb_spec (Z.of_nat k) 0); [lia|].
  rewrite Nat2Z.id, nth_error_map.
  unfold py_range2. rewrite nth_error_map, nth_error_seq.
  change (Z.to_nat (100 - 1)) with 99%nat.
  destruct (Nat.ltb_spec k 99); [|lia]. cbn [option_map].
  replace (1 + Z.of_nat (0 + k))%Z with (Z.of_nat (S k)) by lia.
  reflexivity.
Qed.

Lemma median_value (data : list Q) :
  data <> [] ->
  let s := py_sorted data in
  let n := Z.of_nat (length data) in
  median data
  = Returned (if (n mod 2 =? 1)%Z then nth (Z.to_nat (n / 2)) s 0
              else (nth (Z.to_nat (n / 2 - 1)) s 0
                    + nth (Z.to_nat (n / 2)) s 0) / 2).
Proof.
  intros Hne s n. unfold median. rewrite length_py_sorted. fold n. fold s.
  assert (Hn : (1 <= n)%Z).
  { unfold n. destruct data; [congruence | cbn; lia]. }
  assert (Hs : Z.of_nat (length s) = n) by (unfold s; rewrite length_py_sorted; reflexivity).
  destruct (Z.eqb_spec n 0); [lia|].
  destruct (Z.eqb_spec (n mod 2) 1) as [Hodd|Heven].
  - apply py_index_nth. rewrite Hs. split; [apply Z.div_pos; lia|].
    apply Z.div_lt_upper_bound; lia.
  - assert (n mod 2 = 0)%Z by (pose proof (Z.mod_pos_bound n 2); lia).
    assert (n = 2 * (n / 2))%Z by (pose proof (Z.div_mod n 2); lia).
    rewrite !py_index_nth by (rewrite Hs; lia). reflexivity.
Qed.

Lemma p95_of_large (times : list Q) :
  (20 <= length times)%nat ->
  p95_of times = cut_point (py_sorted times) 100 95.
Proof.
  intros H. unfold p95_of.
  destruct (Nat.leb_spec 20 (length times)); [|lia].
  apply (quantiles_value times 94); lia.
Qed.

Lemma p99_of_large (times : list Q) :
  (50 <= length times)%nat ->
  p99_of times = cut_point (py_sorted times) 100 99.
Proof.
  intros H. unfold p99_of.
  destruct (Nat.leb_spec 50 (length times)); [|lia].
  apply (quantiles_value times 98); lia.
Qed.

Lemma weighted_is_interpolation (a b : Q) (delta : Z) :
  (a * inject_Z (100 - delta) + b * inject_Z delta) / inject_Z 100
  == a + (b - a) * (Qmake delta 100).
Proof.
  rewrite (Qmake_Qdiv delta 100).
  unfold Zminus. rewrite inject_Z_plus, inject_Z_opp.
  change (inject_Z (Z.pos 100)) with 100. change (inject_Z 100) with 100.
  field.
Qed.

Lemma cut_point_interpolates (data : list Q) (i : Z) :
  (2 <= Z.of_nat (length data))%Z ->
  let ld := Z.of_nat (length data) in
  let j := clamp_rank ld (i * (ld + 1) / 100) in
  exists v, cut_point data 100 i = Returned v
            /\ v == interpolate data j (Qmake (i * (ld + 1) - j * 100) 100).
Proof.
  intros Hld ld j. eexists. split; [apply cut_point_value; exact Hld|].
  cbv zeta. fold ld. fold j. unfold interpolate.
  apply weighted_is_interpolation.
Qed.

Lemma In_insert_sorted x y l : In y (insert_sorted x l) <-> y = x \/ In y l.
Proof.
  induction l as [|z l IH]; cbn.
  - intuition.
  - destruct (Qle_bool x z); cbn; [intuition|]. rewrite IH. intuition.
Qed.

Lemma In_py_sorted x l : In x (py_sorted l) <-> In x l.
Proof.
  unfold py_sorted. induction l as [|y l IH]; cbn; [reflexivity|].
  rewrite In_insert_sorted, IH. intuition.
Qed.



Lemma ascending_nth (l : list Q) (i j : nat) :
  StronglySorted Qle l -> (i <= j < length l)%nat ->
  nth i l 0 <= nth j l 0.
Proof.
  intros Hs. revert i j. induction Hs as [|x l Hs IH Hx]; intros i j [Hij Hj].
  - cbn in Hj. lia.
  - destruct j as [|j].
    + replace i with 0%nat by lia. cbn. lra.
    + destruct i as [|i]; cbn.
      * rewrite Stdlib.Lists.List.Forall_forall in Hx. apply Hx.
        apply nth_In. cbn in Hj. lia.
      * apply IH. cbn in Hj. lia.
Qed.

Lemma fold_max_bounds (l : list Q) (x : Q) :
  let hi := fold_left (fun m y => if Qle_bool y m then m else y) l x in
  x <= hi /\ forall y, In y l -> y <= hi.
Proof.
  revert x. induction l as [|z l IH]; intros x; cbn.
  - split; [lra | tauto].
  - destruct (Qle_bool z x) eqn:E.
    + apply Qle_bool_iff in E. destruct (IH x) as [H1 H2].
      split; [exact H1|]. intros y [<-|Hy]; [lra | apply H2, Hy].
    + assert (x <= z).
      { destruct (Qlt_le_dec x z) as [H|H]; [lra|].
        apply Qle_bool_iff in H. congruence. }
      destruct (IH z) as [H1 H2].
      split; [lra|]. intros y [<-|Hy]; [exact H1 | apply H2, Hy].
Qed.

Lemma fold_min_bounds (l : list Q) (x : Q) :
  let lo := fold_left (fun m y => if Qle_bool m y then m else y) l x in
  lo <= x /\ forall y, In y l -> lo <= y.
Proof.
  revert x. induction l as [|z l IH]; intros x; cbn.
  - split; [lra | tauto].
  - destruct (Qle_bool x z) eqn:E.
    + apply Qle_bool_iff in E. destruct (IH x) as [H1 H2].
      split; [exact H1|]. intros y [<-|Hy]; [lra | apply H2, Hy].
    + assert (z <= x).
      { destruct (Qlt_le_dec z x) as [H|H]; [lra|].
        apply Qle_bool_iff in H. congruence. }
      destruct (IH z) as [H1 H2].
      split; [lra|]. intros y [<-|Hy]; [exact H1 | apply H2, Hy].
Qed.

Lemma py_max_upper_bound (l : list Q) (hi : Q) :
  py_max l = Returned hi -> forall y, In y l -> y <= hi.
Proof.
  destruct l as [|x l]; cbn; [discriminate|].
  intros H. inversion H; subst; clear H.
  destruct (fold_max_bounds l x) as [H1 H2].
  intros y [<-|Hy]; [exact H1 | apply H2, Hy].
Qed.

Lemma py_min_lower_bound (l : list Q) (lo : Q) :
  py_min l = Returned lo -> forall y, In y l -> lo <= y.
Proof.
  destruct l as [|x l]; cbn; [discriminate|].
  intros H. inversion H; subst; clear H.
  destruct (fold_min_bounds l x) as [H1 H2].
  intros y [<-|Hy]; [exact H1 | apply H2, Hy].
Qed.

(** Every value of the sorted sample lies between the minimum and the
    maximum. *)
Lemma sorted_nth_bounds (times : list Q) (lo hi : Q) (k : nat) :
  py_min times = Returned lo -> py_max times = Returned hi ->
  (k < length times)%nat ->
  lo <= nth k (py_sorted times) 0 <= hi.
Proof.
  intros Hlo Hhi Hk.
  assert (Hin : In (nth k (py_sorted times) 0) times).
  { apply In_py_sorted. apply nth_In. rewrite length_py_sorted. exact Hk. }
  split; [eapply py_min_lower_bound | eapply py_max_upper_bound]; eassumption.
Qed.

Lemma latency_analysis_returns (times : list Q) :
  times <> [] ->
  exists lo hi p50 p95 p99,
    py_min times = Returned lo /\ py_max times = Returned hi
    /\ median times = Returned p50
    /\ p95_of times = Returned p95 /\ p99_of times = Returned p99
    /\ latency_analysis times
       = Returned {| Minimum := lo; Median := p50; P95 := p95; P99 := p99;
                     Maximum := hi |}.
Proof.
  intros Hne.
  assert (Hmax : exists hi, py_max times = Returned hi)
    by (destruct times; [congruence | eexists; reflexivity]).
  assert (Hmin : exists lo, py_min times = Returned lo)
    by (destruct times; [congruence | eexists; reflexivity]).
  destruct Hmax as [hi Hhi], Hmin as [lo Hlo].
  assert (H95 : exists p, p95_of times = Returned p).
  { destruct (Nat.le_gt_cases 20 (length times)) as [Hl|Hs].
    - rewrite p95_of_large by exact Hl.
      eexists. apply cut_point_value. rewrite length_py_sorted. lia.
    - exists hi. unfold p95_of.
      destruct (Nat.leb_spec 20 (length times)); [lia | exact Hhi]. }
  assert (H99 : exists p, p99_of times = Returned p).
  { destruct (Nat.le_gt_cases 50 (length times)) as [Hl|Hs].
    - rewrite p99_of_large by exact Hl.
      eexists. apply cut_point_value. rewrite length_py_sorted. lia.
    - exists hi. unfold p99_of.
      destruct (Nat.leb_spec 50 (length times)); [lia | exact Hhi]. }
  destruct H95 as [p95 E95], H99 as [p99 E99].
  exists lo, hi. eexists. exists p95, p99.
  repeat (split; [first [eassumption | apply median_value; exact Hne]|]).
  unfold latency_analysis.
  rewrite (median_value times Hne), E95, E99, Hlo, Hhi. reflexivity.
Qed.

Lemma p95_of_value (times : list Q) (hi : Q) :
  py_max times = Returned hi ->
  let n := Z.of_nat (length times) in
  exists p,
    p95_of times = Returned p
    /\ ((n < 20)%Z -> p = hi)
    /\ ((20 <= n)%Z ->
        p == interpolate (py_sorted times) (95 * (n + 1) / 100)
               (Qmake ((95 * (n + 1)) mod 100) 100)).
Proof.
  intros Hhi n.
  assert (Hlen : Z.of_nat (length (py_sorted times)) = n)
    by (rewrite length_py_sorted; reflexivity).
  destruct (Z.lt_ge_cases n 20) as [Hs|Hl].
  - exists hi. unfold p95_of.
    destruct (Nat.leb_spec 20 (length times)); [lia|].
    split; [exact Hhi|]. split; [reflexivity | lia].
  - rewrite p95_of_large by lia.
    destruct (cut_point_interpolates (py_sorted times) 95) as [v [Hv Hi]];
      [lia|].
    exists v. split; [exact Hv|]. split; [lia|]. intros _.
    rewrite Hi, Hlen. clear Hi Hv.
    assert (Hj : clamp_rank n (95 * (n + 1) / 100) = (95 * (n + 1) / 100)%Z).
    { unfold clamp_rank.
      destruct (Z.ltb_spec (95 * (n + 1) / 100) 1) as [H1|H1].
      - exfalso. revert H1. apply Z.le_ngt.
        apply Z.div_le_lower_bound; lia.
      - destruct (Z.gtb_spec (95 * (n + 1) / 100) (n - 1)) as [H2|H2];
          [|reflexivity].
        exfalso. revert H2. apply Z.le_ngt.
        apply Z.lt_succ_r. apply Z.div_lt_upper_bound; lia. }
    rewrite Hj.
    replace (95 * (n + 1) - 95 * (n + 1) / 100 * 100)%Z
      with ((95 * (n + 1)) mod 100)%Z; [reflexivity|].
    rewrite Z.mod_eq by lia. lia.
Qed.

Lemma p99_of_value (times : list Q) (hi : Q) :
  py_max times = Returned hi ->
  let n := Z.of_nat (length times) in
  let j99 := Z.min (n - 1) (99 * (n + 1) / 100) in
  exists p,
    p99_of times = Returned p
    /\ ((n < 50)%Z -> p = hi)
    /\ ((50 <= n)%Z ->
        p == interpolate (py_sorted times) j99
               (Qmake (99 * (n + 1) - 100 * j99) 100)).
Proof.
  intros Hhi n j99.
  assert (Hlen : Z.of_nat (length (py_sorted times)) = n)
    by (rewrite length_py_sorted; reflexivity).
  destruct (Z.lt_ge_cases n 50) as [Hs|Hl].
  - exists hi. unfold p99_of.
    destruct (Nat.leb_spec 50 (length times)); [lia|].
    split; [exact Hhi|]. split; [reflexivity | lia].
  - rewrite p99_of_large by lia.
    destruct (cut_point_interpolates (py_sorted times) 99) as [v [Hv Hi]];
      [lia|].
    exists v. split; [exact Hv|]. split; [lia|]. intros _.
    rewrite Hi, Hlen. clear Hi Hv.
    assert (Hj : clamp_rank n (99 * (n + 1) / 100) = j99).
    { unfold clamp_rank, j99.
      destruct (Z.ltb_spec (99 * (n + 1) / 100) 1) as [H1|H1].
      - exfalso. revert H1. apply Z.le_ngt.
        apply Z.div_le_lower_bound; lia.
      - destruct (Z.gtb_spec (99 * (n + 1) / 100) (n - 1)); lia. }
    rewrite Hj.
    replace (99 * (n + 1) - j99 * 100)%Z with (99 * (n + 1) - 100 * j99)%Z
      by lia.
    reflexivity.
Qed.

Lemma fold_max_In (l : list Q) (x : Q) :
  let hi := fold_left (fun m y => if Qle_bool y m then m else y) l x in
  hi = x \/ In hi l.
Proof.
  revert x. induction l as [|z l IH]; intros x; cbn; [left; reflexivity|].
  destruct (Qle_bool z x).
  - destruct (IH x) as [H|H]; [left; exact H | right; right; exact H].
  - destruct (IH z) as [H|H]; [right; left; symmetry; exact H
                              | right; right; exact H].
Qed.

Lemma py_max_In (l : list Q) (hi : Q) : py_max l = Returned hi -> In hi l.
Proof.
  destruct l as [|x l]; cbn; [discriminate|].
  intros H. inversion H; subst; clear H.
  destruct (fold_max_In l x) as [H|H]; [left; symmetry; exact H | right; exact H].
Qed.





(** X13.  For every non-empty latency sample the median shown lies
    between the minimum and the maximum shown; below 20 values the whole
    chain median <= P95 <= P99 <= maximum holds, P95 and P99 being the
    maximum itself. *)
Theorem median_between_extremes (times : list Q) :
  times <> [] ->
  let n := Z.of_nat (length times) in
  exists t,
    latency_analysis times = Returned t
    /\ Minimum t <= Median t <= Maximum t
    /\ ((n < 20)%Z ->
        Median t <= P95 t /\ P95 t <= P99 t /\ P99 t <= Maximum t).
Proof.
  intros Hne n.
  destruct (latency_analysis_returns times Hne)
    as (lo & hi & p50 & p95 & p99 & Hlo & Hhi & Hmed & H95 & H99 & Hla).
  eexists. split; [exact Hla|]. cbn.
  assert (Hn : (1 <= n)%Z)
    by (unfold n; destruct times; [congruence | cbn; lia]).
  assert (HB : forall k : Z, (0 <= k < n)%Z ->
             lo <= nth (Z.to_nat k) (py_sorted times) 0 <= hi).
  { intros k Hk. apply sorted_nth_bounds; [exact Hlo | exact Hhi | lia]. }
  rewrite (median_value times Hne) in Hmed. cbv zeta in Hmed. fold n in Hmed.
  assert (Hhalf : (0 <= n / 2 < n)%Z).
  { split; [apply Z.div_pos; lia | apply Z.div_lt_upper_bound; lia]. }
  assert (Hm : lo <= p50 <= hi).
  { destruct (Z.eqb_spec (n mod 2) 1) as [Hodd|Heven];
      inversion Hmed; subst p50; clear Hmed.
    - apply HB. lia.
    - assert (n mod 2 = 0)%Z by (pose proof (Z.mod_pos_bound n 2); lia).
      assert (n = 2 * (n / 2))%Z by (pose proof (Z.div_mod n 2); lia).
      destruct (HB (n / 2 - 1)%Z ltac:(lia)) as [Ha1 Ha2].
      destruct (HB (n / 2)%Z ltac:(lia)) as [Hb1 Hb2].
      set (a := nth (Z.to_nat (n / 2 - 1)) (py_sorted times) 0) in *.
      set (b := nth (Z.to_nat (n / 2)) (py_sorted times) 0) in *.
      clearbody a b. split.
      + apply Qle_shift_div_l; lra.
      + apply Qle_shift_div_r; lra. }
  split; [exact Hm|]. intros Hsmall.
  destruct (p95_of_value times hi Hhi) as (p & Hp & Hs95 & _).
  rewrite H95 in Hp. inversion Hp; subst p; clear Hp.
  destruct (p99_of_value times hi Hhi) as (p & Hp & Hs99 & _).
  rewrite H99 in Hp. inversion Hp; subst p; clear Hp.
  fold n in Hs95, Hs99.
  rewrite (Hs95 Hsmall), (Hs99 ltac:(lia)). destruct Hm. repeat split; lra.
Qed.

Lemma median_between_extremes_witness :
  exists t,
    latency_analysis [3; 1; 2; 4] = Returned t
    /\ Minimum t <= Median t <= Maximum t
    /\ Median t <= P95 t /\ P95 t <= P99 t /\ P99 t <= Maximum t.
Proof.
  destruct (median_between_extremes [3; 1; 2; 4]) as (t & Ht & Hm & Hsmall);
    [discriminate|].
  exists t. split; [exact Ht|]. split; [exact Hm|]. apply Hsmall. reflexivity.
Defined.

(** ** The aggregator *)

Lemma traverse_Forall2 {A B} (f : A -> outcome B) (l : list A) (l' : list B) :
  traverse f l = Returned l' -> Forall2 (fun x y => f x = Returned y) l l'.
Proof.
  revert l'. induction l as [|x l IH]; intros l' H; cbn in H.
  - inversion H. constructor.
  - destruct (f x) as [y|e] eqn:Ex; cbn in H; [|discriminate].
    destruct (traverse f l) as [ys|e]; cbn in H; [|discriminate].
    inversion H; subst. constructor; [exact Ex | apply IH; reflexivity].
Qed.

Lemma traverse_length {A B} (f : A -> outcome B) (l : list A) (l' : list B) :
  traverse f l = Returned l' -> length l' = length l.
Proof.
  intros H. apply traverse_Forall2 in H.
  symmetry. eapply Forall2_length. exact H.
Qed.

Lemma mean_returns (data : list Q) :
  data <> [] -> mean data = Returned (py_sum data / Q_of_nat (length data)).
Proof.
  intros H. unfold mean. destruct data; [congruence | reflexivity].
Qed.

Lemma In_valid_results results d :
  In d (valid_results results)
  <-> In (GDict d) results /\ dict_get d "response_time" <> VNone.
Proof.
  unfold valid_results. rewrite <- !list_elem_of_In, list_elem_of_omap.
  split.
  - intros [[d'|e] [Hin Hf]]; [|discriminate].
    destruct (dict_get d' "response_time") eqn:E; cbn in Hf;
      try discriminate; inversion Hf; subst; rewrite E; split; auto; discriminate.
  - intros [Hin Hv]. exists (GDict d). split; [exact Hin|].
    destruct (dict_get d "response_time"); cbn; congruence.
Qed.

Lemma valid_results_nonempty results d l :
  valid_results results = d :: l -> (0 < length results)%nat.
Proof.
  destruct results; cbn; [discriminate | lia].
Qed.

Lemma process_returns results total_duration times :
  response_times (valid_results results) = Returned times ->
  valid_results results <> [] ->
  exists s t,
    process_and_display_results results total_duration = Returned (Summary s)
    /\ total_requests s = length results
    /\ success_count s = length (successful_results (valid_results results))
    /\ success_rate s
       = Q_of_nat (success_count s) / Q_of_nat (total_requests s) * 100
    /\ latency_sample s = times
    /\ table s = Some t
    /\ latency_analysis times = Returned t.
Proof.
  intros Ht Hne. unfold process_and_display_results.
  destruct (valid_results results) as [|d l] eqn:Ev; [congruence|].
  cbn [is_empty]. rewrite Ht. cbn [obind].
  assert (Htimes : times <> []).
  { apply traverse_length in Ht. destruct times; [discriminate | congruence]. }
  destruct times as [|q times'] eqn:Eq; [congruence|]. rewrite <- Eq in *.
  replace (is_empty times) with false by (rewrite Eq; reflexivity).
  rewrite (mean_returns times Htimes). cbn [obind].
  destruct (latency_analysis_returns times Htimes)
    as (lo & hi & p50 & p95 & p99 & _ & _ & _ & _ & _ & Hla).
  rewrite Hla. cbn [obind].
  pose proof (valid_results_nonempty _ _ _ Ev) as Hpos.
  destruct (Nat.ltb_spec 0 (length results)); [|lia].
  eexists. eexists. split; [reflexivity|]. cbn. repeat split; try exact Hla.
Qed.

Lemma process_summary_inv results total_duration s :
  process_and_display_results results total_duration = Returned (Summary s) ->
  valid_results results <> []
  /\ response_times (valid_results results) = Returned (latency_sample s).
Proof.
  unfold process_and_display_results.
  destruct (valid_results results) as [|d l] eqn:Ev; [discriminate|].
  cbn [is_empty].
  destruct (response_times (d :: l)) as [times|e]; [|discriminate].
  cbn [obind].
  destruct (if is_empty times then Returned 0 else mean times);
    [|discriminate]. cbn [obind].
  destruct (if is_empty times then Returned None
            else t <~ latency_analysis times ;; Returned (Some t));
    [|discriminate]. cbn [obind].
  destruct (if is_empty times then Returned None else _); [|discriminate].
  cbn [obind]. intros H. inversion H; subst. cbn. split; [discriminate|reflexivity].
Qed.

Lemma valid_results_cons_dict d results :
  valid_results (GDict d :: results)
  = if is_not_None (dict_get d "response_time")
    then d :: valid_results results else valid_results results.
Proof.
  unfold valid_results. cbn.
  destruct (is_not_None (dict_get d "response_time")); reflexivity.
Qed.

Lemma response_times_cons d valid :
  response_times (d :: valid)
  = (q <~ (v <~ dict_item d "response_time" ;; as_number v) ;;
     qs <~ response_times valid ;; Returned (q :: qs)).
Proof. reflexivity. Qed.

(** The response times of what the executor returns are numbers. *)
Lemma response_times_of_tasks (tasks : list (world * Q)) url timeout delay :
  exists times,
    response_times
      (valid_results
         (map (fun task =>
                 gathered_of (fst (fetch_with_metrics (fst task) url timeout
                                     delay (snd task)))) tasks))
    = Returned times.
Proof.
  induction tasks as [|[w t] tasks [times IH]]; [eexists; reflexivity|].
  cbn [map fst snd]. rewrite fetch_by_exchange.
  destruct (http_exchange _ _ _ _) as [[[r c]|[cls msg]] u]; cbn [fst gathered_of].
  - rewrite valid_results_cons_dict.
    change (dict_get (response_result _ _ _ _) "response_time")
      with (VFloat ((u - t) * 1000)).
    cbn [is_not_None]. rewrite response_times_cons, IH.
    eexists. reflexivity.
  - destruct cls; cbn [fst gathered_of]; rewrite valid_results_cons_dict.
    1: { change (dict_get (timeout_result timeout) "response_time")
           with (VInt (timeout * 1000)).
         cbn [is_not_None]. rewrite response_times_cons, IH.
         eexists. reflexivity. }
    all: change (dict_get (error_result msg) "response_time") with VNone;
      cbn [is_not_None]; exists times; exact IH.
Qed.

Lemma response_times_of_run env url concurrent_users requests_per_user
    timeout delay t results :
  fst (run_load_test env url concurrent_users requests_per_user timeout
         delay t) = Returned results ->
  exists times, response_times (valid_results results) = Returned times.
Proof.
  intros H. cbn in H. inversion H; subst; clear H.
  rewrite map_map.
  destruct (response_times_of_tasks
              (map (fun i => (env i, t))
                   (py_range (concurrent_users * requests_per_user)))
              url timeout delay) as [times Ht].
  rewrite map_map in Ht. cbn [fst snd] in Ht.
  exists times. exact Ht.
Qed.

Lemma Q_of_nat_nonzero n : (0 < n)%nat -> ~ Q_of_nat n == 0.
Proof.
  intros Hn Hz. unfold Q_of_nat, Qeq in Hz. cbn in Hz. lia.
Qed.

(** C4.  For every result list whose response times are numbers: when
    no result is valid the aggregator shows the no-data outcome and
    computes nothing; otherwise the success rate it shows is
    [100 * |successful| / |results|], the denominator being the length
    of the whole result list. *)
Theorem success_rate_over_all_results results total_duration times :
  response_times (valid_results results) = Returned times ->
  match valid_results results with
  | [] =>
      process_and_display_results results total_duration
      = Returned NoValidResponses
  | _ :: _ =>
      exists s,
        process_and_display_results results total_duration
        = Returned (Summary s)
        /\ total_requests s = length results
        /\ success_count s
           = length (successful_results (valid_results results))
        /\ success_rate s
           == 100 * Q_of_nat (length (successful_results
                                        (valid_results results)))
              / Q_of_nat (length results)
  end.
Proof.
  intros Ht.
  destruct (valid_results results) as [|d l] eqn:Ev.
  - unfold process_and_display_results. rewrite Ev. reflexivity.
  - destruct (process_returns results total_duration times)
      as (s & t & Hp & Htot & Hsc & Hrate & _);
      [rewrite Ev; exact Ht | rewrite Ev; discriminate|].
    exists s. rewrite Ev in Hsc.
    split; [exact Hp|]. split; [exact Htot|]. split; [exact Hsc|].
    rewrite Hrate, Hsc, Htot. field.
    apply Q_of_nat_nonzero. eapply valid_results_nonempty. exact Ev.
Qed.

Lemma success_rate_over_all_results_witness :
  response_times (valid_results mixed_results)
  = Returned [(5 # 100) * 1000; (7 # 100) * 1000; inject_Z (1 * 1000)]
  /\ exists s,
       process_and_display_results mixed_results 1 = Returned (Summary s)
       /\ total_requests s = 5%nat
       /\ success_count s = 1%nat
       /\ success_rate s == 100 * Q_of_nat 1 / Q_of_nat 5.
Proof.
  split; [reflexivity|].
  exact (success_rate_over_all_results mixed_results 1
           [(5 # 100) * 1000; (7 # 100) * 1000; inject_Z (1 * 1000)] eq_refl).
Defined.

Lemma Forall2_In_l {A B} (P : A -> B -> Prop) l k x :
  Forall2 P l k -> In x l -> exists y, In y k /\ P x y.
Proof.
  induction 1 as [|a b l k Hab _ IH]; intros Hin; [destruct Hin|].
  destruct Hin as [->|Hin].
  - exists b. split; [left; reflexivity | exact Hab].
  - destruct (IH Hin) as [y [Hy HP]]. exists y. split; [right; exact Hy | exact HP].
Qed.

(** C3, as stated, fails: a single request that times out after one
    second is a valid result, its sentinel 1000 is the whole latency
    sample, and every row of the latency table is that sentinel. *)
Lemma timeout_sentinel_in_sample :
  (exists results,
     fst (run_load_test (fun _ => silent_world) "https://example.com"
            1 1 1 0 0) = Returned results
     /\ results = [GDict (timeout_result 1)]
     /\ valid_results results = [timeout_result 1]
     /\ exists s,
          process_and_display_results results 1 = Returned (Summary s)
          /\ latency_sample s = [inject_Z 1000]
          /\ table s = Some {| Minimum := inject_Z 1000;
                               Median := inject_Z 1000;
                               P95 := inject_Z 1000;
                               P99 := inject_Z 1000;
                               Maximum := inject_Z 1000 |})
  /\ ~ (forall results d,
          In d (valid_results results) ->
          d !! "status" <> Some (VStr "timeout")).
Proof.
  split.
  - eexists. split; [reflexivity|]. split; [reflexivity|].
    split; [reflexivity|]. eexists. split; [reflexivity|].
    split; reflexivity.
  - intros H.
    apply (H [GDict (timeout_result 1)] (timeout_result 1));
      [left; reflexivity | reflexivity].
Qed.

(** C3, as amended.  Whenever a summary is shown, the latency sample is
    made of the [response_time] of exactly the results whose
    [response_time] is not [None]: a timed-out request contributes its
    sentinel [timeout * 1000]; only results whose [response_time] is
    [None] (status "error") and exception objects are left out. *)
Theorem latency_sample_contents results total_duration s :
  process_and_display_results results total_duration = Returned (Summary s) ->
  (forall d, In d (valid_results results)
             <-> In (GDict d) results /\ dict_get d "response_time" <> VNone)
  /\ Forall2 (fun d q => exists v, d !! "response_time" = Some v
                                   /\ as_number v = Returned q)
             (valid_results results) (latency_sample s)
  /\ (forall timeout,
        In (GDict (timeout_result timeout)) results ->
        In (timeout_result timeout) (valid_results results)
        /\ In (inject_Z (timeout * 1000)) (latency_sample s))
  /\ (forall msg, ~ In (error_result msg) (valid_results results)).
Proof.
  intros Hp. apply process_summary_inv in Hp as [_ Ht].
  assert (HF : Forall2 (fun d q => exists v, d !! "response_time" = Some v
                                   /\ as_number v = Returned q)
             (valid_results results) (latency_sample s)).
  { apply traverse_Forall2 in Ht.
    eapply Forall2_impl; [exact Ht|]. cbn. intros d q H.
    unfold dict_item in H. destruct (d !! "response_time") as [v|];
      [|discriminate].
    exists v. split; [reflexivity | exact H]. }
  split; [intros d; apply In_valid_results|].
  split; [exact HF|]. split.
  - intros timeout Hin.
    assert (Hv : In (timeout_result timeout) (valid_results results)).
    { apply In_valid_results. split; [exact Hin | discriminate]. }
    split; [exact Hv|].
    destruct (Forall2_In_l _ _ _ _ HF Hv) as (q & Hq & v & Hv1 & Hv2).
    change (timeout_result timeout !! "response_time")
      with (Some (VInt (timeout * 1000))) in Hv1.
    inversion Hv1; subst. cbn in Hv2. inversion Hv2; subst.
    exact Hq.
  - intros msg Hin. apply In_valid_results in Hin as [_ Hv].
    apply Hv. reflexivity.
Qed.

Lemma latency_sample_contents_witness :
  exists s,
    process_and_display_results mixed_results 1 = Returned (Summary s)
    /\ In (timeout_result 1) (valid_results mixed_results)
    /\ In (inject_Z (1 * 1000)) (latency_sample s)
    /\ ~ In (error_result "Cannot connect to host")
            (valid_results mixed_results).
Proof.
  destruct (process_and_display_results mixed_results 1) as [[|s]|e] eqn:E;
    try (exfalso; vm_compute in E; discriminate).
  exists s. split; [reflexivity|].
  destruct (latency_sample_contents mixed_results 1 s E)
    as (_ & _ & Htimeout & Herror).
  destruct (Htimeout 1%Z) as [H1 H2]; [right; right; left; reflexivity|].
  split; [exact H1|]. split; [exact H2 | apply Herror].
Defined.

(** C8.  The default configuration (10 users, 5 requests each), 49
    requests answered in 100 ms and one in 200 ms: the table shows a
    99th percentile of 249 ms above a maximum of 200 ms. *)
Theorem p99_above_maximum :
  exists results t,
    fst (run_load_test one_slow "https://example.com" 10 5 10 0 0)
      = Returned results
    /\ length results = 50%nat
    /\ reported_table (process_and_display_results results 1) = Some t
    /\ Maximum t == 200 /\ P99 t == 249 /\ Maximum t < P99 t.
Proof.
  eexists. eexists. split; [reflexivity|].
  split; [vm_compute; reflexivity|].
  split; [vm_compute; reflexivity|].
  vm_compute. repeat split.
Qed.

(** * Further properties *)

(** ** Further properties of the request executor *)

(** X1.  Whatever happens to the request, the result says success
    exactly when its status is an HTTP status from 200 to 299: a timeout
    or an error is never a success. *)
Theorem success_iff_2xx w url timeout delay t :
  exists d,
    fst (fetch_with_metrics w url timeout delay t) = Returned d
    /\ (d !! "success" = Some (VBool true)
        <-> exists s, d !! "status" = Some (VInt s) /\ (200 <= s < 300)%Z).
Proof.
  rewrite fetch_by_exchange.
  destruct (http_exchange _ _ _ _) as [[[r c]|[cls msg]] u].
  - eexists. split; [reflexivity|].
    change (response_result _ _ _ _ !! "success")
      with (Some (VBool ((200 <=? resp_status r)%Z
                         && (resp_status r <? 300)%Z))).
    change (response_result _ _ _ _ !! "status")
      with (Some (VInt (resp_status r))).
    split.
    + intros H. inversion H as [Hb]. exists (resp_status r).
      split; [reflexivity|].
      apply andb_prop in Hb as [H1 H2].
      apply Z.leb_le in H1. apply Z.ltb_lt in H2. lia.
    + intros (s & Hs & H1 & H2). inversion Hs; subst s.
      apply Z.leb_le in H1. apply Z.ltb_lt in H2. rewrite H1, H2. reflexivity.
  - destruct cls; eexists; (split; [reflexivity|]);
      (split; [intros H; discriminate H | intros (s & Hs & _); discriminate Hs]).
Qed.

(** X2.  The keys of a result follow its status: the response time is
    [None] exactly for status "error", an "error" message is present
    exactly for the two sentinel statuses, and a "content_length" exactly
    for a numeric status. *)
Theorem result_shape w url timeout delay t :
  exists d,
    fst (fetch_with_metrics w url timeout delay t) = Returned d
    /\ (d !! "response_time" = Some VNone
        <-> d !! "status" = Some (VStr "error"))
    /\ (is_Some (d !! "error") <-> exists s, d !! "status" = Some (VStr s))
    /\ (is_Some (d !! "content_length")
        <-> exists z, d !! "status" = Some (VInt z)).
Proof.
  rewrite fetch_by_exchange.
  destruct (http_exchange _ _ _ _) as [[[r c]|[cls msg]] u];
    [|destruct cls]; eexists; (split; [reflexivity|]);
    repeat split;
    try (intros H; discriminate H);
    try (intros [x H]; discriminate H);
    try (intros _; eexists; reflexivity).
Qed.

Lemma Qle_bool_false (a b : Q) : Qle_bool a b = false -> b < a.
Proof.
  intros H. destruct (Qlt_le_dec b a) as [Hlt|Hle]; [exact Hlt|].
  apply Qle_bool_iff in Hle. congruence.
Qed.

Lemma issue_instant_bounds w delay t :
  0 <= loop_lag w ->
  t + inject_Z (Z.max 0 delay) / 1000 <= issue_instant w delay t
  /\ issue_instant w delay t
     <= t + inject_Z (Z.max 0 delay) / 1000 + loop_lag w.
Proof.
  intros Hlag. unfold issue_instant.
  set (lag := loop_lag w) in *. clearbody lag.
  destruct (Z.ltb_spec 0 delay).
  - replace (Z.max 0 delay) with delay by lia.
    generalize (inject_Z delay / 1000). intros x. split; lra.
  - replace (Z.max 0 delay) with 0%Z by lia.
    assert (E : inject_Z 0 / 1000 == 0) by reflexivity.
    rewrite E. split; lra.
Qed.

(** The time the exchange takes is between zero and the timeout. *)
Lemma http_exchange_duration w url timeout t :
  timely (server w url) -> (0 <= timeout)%Z ->
  t <= snd (http_exchange w url timeout t) <= t + inject_Z timeout.
Proof.
  intros Hw Ht.
  assert (Hb : 0 <= inject_Z timeout) by (unfold Qle; cbn; lia).
  unfold http_exchange, session_get, response_text, bind, ret.
  destruct (server w url) as [s b th tb|e after|]; cbn in Hw |- *.
  - destruct Hw as [Hh Hbody].
    destruct (Qle_bool th (inject_Z timeout)) eqn:E1; cbn.
    + apply Qle_bool_iff in E1. rewrite body_budget_shift.
      destruct (Qle_bool (th + tb) (inject_Z timeout)) eqn:E2; cbn.
      * apply Qle_bool_iff in E2. split; lra.
      * split; lra.
    + split; lra.
  - destruct (Qle_bool after (inject_Z timeout)) eqn:E1; cbn.
    + apply Qle_bool_iff in E1. split; lra.
    + split; lra.
  - split; lra.
Qed.

(** X3.  When the event loop wakes a sleeping task no earlier than
    asked, the server takes no negative time, the timeout is at least
    one second and the delay at most 1000 ms (as the form gives them), a
    measured response time is never below the delay: the sleep before
    the request is always part of it.  A timed-out request records
    exactly [timeout * 1000]. *)
Theorem response_time_at_least_delay w url timeout delay t :
  0 <= loop_lag w -> timely (server w url) -> (1 <= timeout)%Z ->
  (delay <= 1000)%Z ->
  exists d,
    fst (fetch_with_metrics w url timeout delay t) = Returned d
    /\ match d !! "response_time" with
       | Some (VFloat q) => inject_Z (Z.max 0 delay) <= q
       | Some (VInt z) => z = (timeout * 1000)%Z
       | Some VNone => True
       | _ => False
       end.
Proof.
  intros Hlag Hw Ht _. rewrite fetch_by_exchange.
  pose proof (http_exchange_duration w url timeout (issue_instant w delay t)
                Hw ltac:(lia)) as Hd.
  pose proof (issue_instant_bounds w delay t Hlag) as Hi.
  destruct (http_exchange _ _ _ _) as [[[r c]|[cls msg]] u]; cbn [snd] in Hd.
  - eexists. split; [reflexivity|].
    change (response_result _ _ _ _ !! "response_time")
      with (Some (VFloat ((u - t) * 1000))).
    cbv beta iota.
    set (lag := loop_lag w) in *. set (i := issue_instant w delay t) in *.
    set (b := inject_Z timeout) in *. set (x := inject_Z (Z.max 0 delay)) in *.
    clearbody lag i b x.
    assert (Hx : x == x / 1000 * 1000) by field.
    set (y := x / 1000) in *. clearbody y. destruct Hd, Hi. lra.
  - destruct cls; eexists; (split; [reflexivity|]); reflexivity.
Qed.

Lemma response_time_at_least_delay_witness :
  exists d,
    fst (fetch_with_metrics (answering 200 (5 # 100)) "https://example.com"
           5 100 0) = Returned d
    /\ match d !! "response_time" with
       | Some (VFloat q) => 100 <= q
       | Some (VInt z) => z = 5000%Z
       | Some VNone => True
       | _ => False
       end.
Proof.
  apply (response_time_at_least_delay (answering 200 (5 # 100))
           "https://example.com" 5 100 0).
  - cbn. lra.
  - cbn. split; lra.
  - lia.
  - lia.
Defined.

(** ** The URL test *)

Lemma prefix_app (p s : string) :
  String.prefix p s = true <-> exists rest, s = p ++ rest.
Proof.
  revert s. induction p as [|a p IH]; intros s.
  - split; [intros _; exists s; reflexivity | intros _; destruct s; reflexivity].
  - destruct s as [|b s]; cbn.
    + split; [discriminate | intros [rest H]; discriminate H].
    + destruct (Ascii.ascii_dec a b) as [->|Hne].
      * rewrite IH. split; intros [rest H]; exists rest.
        -- subst s. reflexivity.
        -- inversion H. reflexivity.
      * split; [discriminate | intros [rest H]; inversion H; congruence].
Qed.

(** X5.  The URL test of line 134 lets through exactly the strings that
    begin with "http://" or "https://"; its test for an empty string
    adds nothing. *)
Theorem url_accepted_iff_scheme (url : string) :
  url_refused url = false
  <-> exists rest, url = "http://" ++ rest \/ url = "https://" ++ rest.
Proof.
  unfold url_refused, startswith. split.
  - intros H. apply orb_false_elim in H as [_ H].
    apply negb_false_iff, orb_prop in H.
    destruct H as [H|H]; apply prefix_app in H as [rest H]; exists rest; auto.
  - intros [rest [H|H]]; subst url; apply orb_false_intro;
      try reflexivity; apply negb_false_iff, orb_true_intro;
      [left | right]; apply prefix_app; exists rest; reflexivity.
Qed.

(** ** Further properties of the load runner *)

Lemma uniform_task_end status seconds lag url timeout delay t :
  seconds <= inject_Z timeout ->
  snd (fetch_with_metrics (uniform_world status seconds lag) url timeout
         delay t)
  = issue_instant (uniform_world status seconds lag) delay t + seconds + 0.
Proof.
  intros Hs. rewrite fetch_by_exchange.
  unfold http_exchange, session_get, response_text, bind, ret. cbn.
  apply Qle_bool_iff in Hs. rewrite Hs. cbn.
  rewrite body_budget_shift.
  assert (Hb : Qle_bool (seconds + 0) (inject_Z timeout) = true).
  { apply Qle_bool_iff. apply Qle_bool_iff in Hs. lra. }
  rewrite Hb. reflexivity.
Qed.

Lemma gather_end_uniform (task : io dict) (indices : list nat) (t e : Q) :
  indices <> [] -> snd (task t) = e -> t <= e ->
  fold_right (fun task latest => Qmax (snd (task t)) latest) t
             (map (fun _ : nat => task) indices) == e.
Proof.
  intros Hne He Hte. induction indices as [|i l IH]; [congruence|].
  cbn. rewrite He. destruct l as [|j l].
  - cbn. apply Q.max_l. exact Hte.
  - rewrite IH by discriminate. apply Q.max_l. lra.
Qed.

(** X4.  As long as the requests are no more than the 100 connections
    of the pool of line 167, so that none waits for a connection: when
    every request is answered after the same time, the run lasts one
    delay, one lag and one exchange, however many requests are
    dispatched: all tasks sleep at the same time. *)
Theorem delay_is_not_cumulative status seconds lag url concurrent_users
    requests_per_user timeout delay t :
  0 <= seconds -> seconds <= inject_Z timeout -> 0 <= lag ->
  (1 <= concurrent_users * requests_per_user <= 100)%Z ->
  snd (run_load_test (fun _ => uniform_world status seconds lag) url
         concurrent_users requests_per_user timeout delay t) - t
  == inject_Z (Z.max 0 delay) / 1000
     + (if (0 <? delay)%Z then lag else 0) + seconds.
Proof.
  intros Hs0 Hs Hlag Hn. unfold run_load_test, asyncio_gather. cbn [snd].
  assert (Hne : py_range (concurrent_users * requests_per_user) <> []).
  { unfold py_range.
    destruct (Z.to_nat (concurrent_users * requests_per_user)) eqn:E;
      [lia | discriminate]. }
  assert (Hstart :
    t <= issue_instant (uniform_world status seconds lag) delay t
         + seconds + 0).
  { unfold issue_instant. cbn [loop_lag uniform_world].
    destruct (Z.ltb_spec 0 delay); [|lra].
    assert (0 <= inject_Z delay / 1000).
    { apply Qle_shift_div_l; [reflexivity|]. unfold Qle. cbn. lia. }
    generalize dependent (inject_Z delay / 1000). intros x Hx. lra. }
  rewrite (gather_end_uniform _ _ t _ Hne
             (uniform_task_end status seconds lag url timeout delay t Hs)
             Hstart).
  unfold issue_instant. cbn [loop_lag uniform_world].
  destruct (Z.ltb_spec 0 delay).
  - replace (Z.max 0 delay) with delay by lia. ring.
  - replace (Z.max 0 delay) with 0%Z by lia.
    assert (E : inject_Z 0 / 1000 == 0) by reflexivity. rewrite E. ring.
Qed.

Lemma delay_is_not_cumulative_witness :
  snd (run_load_test (fun _ => uniform_world 200 (5 # 100) 0)
         "https://example.com" 10 5 10 100 0) - 0
  == inject_Z 100 / 1000 + 0 + (5 # 100)
  /\ estimated_duration 10 5 100 == 5.
Proof.
  split; [|reflexivity].
  apply (delay_is_not_cumulative 200 (5 # 100) 0 "https://example.com"
           10 5 10 100 0).
  - discriminate.
  - discriminate.
  - discriminate.
  - lia.
Defined.

(** ** Further properties of the aggregator *)

(** Everything a shown summary holds, read off lines 204-392. *)
Lemma process_summary_fields results total_duration s :
  process_and_display_results results total_duration = Returned (Summary s) ->
  exists times t,
    response_times (valid_results results) = Returned times
    /\ times <> []
    /\ latency_analysis times = Returned t
    /\ avg_response_time s = py_sum times / Q_of_nat (length times)
    /\ total_requests s = length results
    /\ (0 < length results)%nat
    /\ success_count s = length (successful_results (valid_results results))
    /\ success_rate s
       = Q_of_nat (success_count s) / Q_of_nat (total_requests s) * 100
    /\ throughput s
       = (if Qlt_le_dec 0 total_duration
          then Q_of_nat (total_requests s) / total_duration else 0)
    /\ latency_sample s = times
    /\ table s = Some t
    /\ success_insight s
       = (if Qlt_le_dec (success_rate s) 95 then st_error
          else if Qlt_le_dec (success_rate s) 99 then st_warning
          else st_success)
    /\ speed_insight s
       = Some (if Qlt_le_dec 3000 (avg_response_time s) then st_error
               else if Qlt_le_dec 1000 (avg_response_time s) then st_warning
               else if Qlt_le_dec 500 (avg_response_time s) then st_info
               else st_success).
Proof.
  intros Hp. pose proof Hp as Hinv.
  apply process_summary_inv in Hinv as [Hne Ht].
  remember (latency_sample s) as times eqn:Etimes.
  assert (Htimes : times <> []).
  { apply traverse_length in Ht. destruct times; [|discriminate].
    destruct (valid_results results); [congruence | discriminate]. }
  destruct (latency_analysis_returns times Htimes)
    as (lo & hi & p50 & p95 & p99 & _ & _ & _ & _ & _ & Hla).
  exists times. eexists. split; [exact Ht|]. split; [exact Htimes|].
  split; [exact Hla|].
  revert Hp. unfold process_and_display_results.
  destruct (valid_results results) as [|d l] eqn:Ev; [congruence|].
  cbn [is_empty]. rewrite Ht. cbn [obind].
  replace (is_empty times) with false by (destruct times; [congruence|reflexivity]).
  rewrite (mean_returns times Htimes), Hla. cbn [obind].
  pose proof (valid_results_nonempty _ _ _ Ev) as Hpos.
  destruct (Nat.ltb_spec 0 (length results)); [|lia].
  intros Hs. inversion Hs; subst s; clear Hs. cbn.
  repeat split; assumption.
Qed.

Lemma length_valid_results results :
  (length (valid_results results) <= length results)%nat.
Proof.
  induction results as [|[d|e] l IH]; [cbn; lia | |].
  - rewrite valid_results_cons_dict.
    destruct (is_not_None _); cbn [length]; lia.
  - change (valid_results (GExc e :: l)) with (valid_results l).
    cbn [length]. lia.
Qed.

Lemma process_no_data_iff results total_duration :
  process_and_display_results results total_duration
  = Returned NoValidResponses
  <-> valid_results results = [].
Proof.
  unfold process_and_display_results.
  destruct (valid_results results) as [|d l]; cbn [is_empty].
  - split; reflexivity.
  - split; [|discriminate].
    destruct (response_times (d :: l)) as [times|e]; cbn [obind];
      [|discriminate].
    destruct (if is_empty times then Returned 0 else mean times);
      cbn [obind]; [|discriminate].
    destruct (if is_empty times then Returned None
              else t <~ latency_analysis times ;; Returned (Some t));
      cbn [obind]; [|discriminate].
    destruct (if is_empty times then Returned None else _);
      cbn [obind]; discriminate.
Qed.

(** X7.  The aggregator shows "No valid responses" exactly when every
    element of the result list is an exception object or a result whose
    response time is [None] or missing. *)
Theorem no_valid_responses_iff results total_duration :
  process_and_display_results results total_duration
  = Returned NoValidResponses
  <-> forall g, In g results ->
        match g with
        | GDict d => dict_get d "response_time" = VNone
        | GExc _ => True
        end.
Proof.
  rewrite process_no_data_iff. split.
  - intros Hv [d|e] Hin; [|exact I].
    destruct (dict_get d "response_time") eqn:E; try reflexivity;
      (assert (Hd : In d (valid_results results))
         by (apply In_valid_results; split;
             [exact Hin | rewrite E; discriminate]);
       rewrite Hv in Hd; destruct Hd).
  - intros H. destruct (valid_results results) as [|d l] eqn:Ev;
      [reflexivity|].
    assert (Hd : In d (valid_results results))
      by (rewrite Ev; left; reflexivity).
    apply In_valid_results in Hd as [Hin Hv].
    specialize (H _ Hin). cbn in H. congruence.
Qed.

Lemma Q_of_nat_le (a b : nat) : (a <= b)%nat -> Q_of_nat a <= Q_of_nat b.
Proof. intros H. unfold Q_of_nat, Qle. cbn. lia. Qed.

Lemma Q_of_nat_pos (n : nat) : (0 < n)%nat -> 0 < Q_of_nat n.
Proof. intros H. unfold Q_of_nat, Qlt. cbn. lia. Qed.

Lemma Q_of_nat_S (n : nat) : Q_of_nat (S n) == Q_of_nat n + 1.
Proof.
  unfold Q_of_nat. rewrite Nat2Z.inj_succ. unfold Z.succ.
  rewrite inject_Z_plus. reflexivity.
Qed.

Lemma div_lt_iff (x y c : Q) : 0 < y -> (x / y < c <-> x < c * y).
Proof.
  intros Hy. split.
  - intros H. assert (E : x == x / y * y) by (field; lra).
    rewrite E. apply Qmult_lt_compat_r; assumption.
  - intros H. apply Qlt_shift_div_r; assumption.
Qed.

Lemma div_le_iff (x y c : Q) : 0 < y -> (x / y <= c <-> x <= c * y).
Proof.
  intros Hy. split.
  - intros H. assert (E : x == x / y * y) by (field; lra).
    rewrite E. apply Qmult_le_compat_r; [exact H | lra].
  - intros H. apply Qle_shift_div_r; assumption.
Qed.

(** The success rate compared with a threshold, in counts. *)
Lemma rate_lt_threshold (a b : nat) (k : Z) :
  (0 < b)%nat ->
  Q_of_nat a / Q_of_nat b * 100 < inject_Z k
  <-> (100 * Z.of_nat a < k * Z.of_nat b)%Z.
Proof.
  intros Hb. pose proof (Q_of_nat_pos b Hb) as Hpos.
  assert (E : Q_of_nat a / Q_of_nat b * 100
              == (Q_of_nat a * 100) / Q_of_nat b) by (field; lra).
  rewrite E, div_lt_iff by exact Hpos.
  unfold Q_of_nat. change 100 with (inject_Z 100).
  rewrite <- !inject_Z_mult, <- Zlt_Qlt. lia.
Qed.

(** X9.  In every summary shown: the total is the length of the result
    list, the latency sample has one value per valid result and is not
    empty, successes are at most the valid results, which are at most
    the total; the success rate lies between 0 and 100 and the
    throughput is not negative. *)
Theorem summary_counts results total_duration s :
  process_and_display_results results total_duration = Returned (Summary s) ->
  total_requests s = length results
  /\ length (latency_sample s) = length (valid_results results)
  /\ (success_count s <= length (latency_sample s))%nat
  /\ (0 < length (latency_sample s) <= total_requests s)%nat
  /\ 0 <= success_rate s <= 100
  /\ 0 <= throughput s.
Proof.
  intros Hp.
  destruct (process_summary_fields _ _ _ Hp)
    as (times & t & Ht & Hne & _ & _ & Htot & Hpos & Hsc & Hrate & Hthr
        & Hsample & _).
  pose proof (traverse_length _ _ _ Ht) as Hlen.
  pose proof (length_valid_results results) as Hvalid.
  assert (Hfilter : (success_count s <= length (valid_results results))%nat).
  { rewrite Hsc. apply filter_length_le. }
  rewrite Hsample. split; [exact Htot|]. split; [exact Hlen|].
  split; [lia|]. split.
  { split; [destruct times; [congruence | cbn; lia] | lia]. }
  pose proof (Q_of_nat_pos (total_requests s) ltac:(lia)) as Hq.
  pose proof (Q_of_nat_le 0 (success_count s) ltac:(lia)) as Hq0.
  pose proof (Q_of_nat_le (success_count s) (total_requests s) ltac:(lia))
    as Hq1.
  change (Q_of_nat 0) with 0 in Hq0.
  split.
  - rewrite Hrate.
    assert (H0 : 0 <= Q_of_nat (success_count s) / Q_of_nat (total_requests s))
      by (apply Qle_shift_div_l; lra).
    assert (H1 : Q_of_nat (success_count s) / Q_of_nat (total_requests s) <= 1)
      by (apply Qle_shift_div_r; lra).
    generalize dependent (Q_of_nat (success_count s)
                          / Q_of_nat (total_requests s)).
    intros x _ H0 H1. split; lra.
  - rewrite Hthr. destruct (Qlt_le_dec 0 total_duration) as [Hd|Hd]; [|lra].
    apply Qle_shift_div_l; [exact Hd|]. lra.
Qed.

Lemma summary_counts_witness :
  exists s,
    process_and_display_results mixed_results 1 = Returned (Summary s)
    /\ total_requests s = 5%nat
    /\ length (latency_sample s) = 3%nat
    /\ (success_count s <= length (latency_sample s))%nat
    /\ 0 <= success_rate s <= 100.
Proof.
  destruct (process_and_display_results mixed_results 1) as [[|s]|e] eqn:E;
    try (exfalso; vm_compute in E; discriminate).
  exists s. split; [reflexivity|].
  destruct (summary_counts mixed_results 1 s E)
    as (Htot & Hlen & Hsc & _ & Hrate & _).
  split; [exact Htot|]. split; [exact Hlen|]. split; [exact Hsc | exact Hrate].
Defined.

(** X11.  The insight on the success rate, in counts: the error box is
    shown exactly when fewer than 95 in 100 requests succeeded, the
    success box exactly when at least 99 in 100 did. *)
Theorem success_insight_in_counts results total_duration s :
  process_and_display_results results total_duration = Returned (Summary s) ->
  (success_insight s = st_error
   <-> (100 * success_count s < 95 * total_requests s)%nat)
  /\ (success_insight s = st_success
      <-> (99 * total_requests s <= 100 * success_count s)%nat).
Proof.
  intros Hp.
  destruct (process_summary_fields _ _ _ Hp)
    as (times & t & _ & _ & _ & _ & Htot & Hpos & _ & Hrate & _ & _ & _
        & Hins & _).
  rewrite Hins, Hrate.
  assert (Hb : (0 < total_requests s)%nat) by lia.
  pose proof (rate_lt_threshold (success_count s) (total_requests s) 95 Hb)
    as H95.
  pose proof (rate_lt_threshold (success_count s) (total_requests s) 99 Hb)
    as H99.
  change (inject_Z 95) with 95 in H95. change (inject_Z 99) with 99 in H99.
  set (rate := Q_of_nat (success_count s) / Q_of_nat (total_requests s) * 100)
    in *.
  destruct (Qlt_le_dec rate 95) as [L95|G95].
  - apply H95 in L95. split; split; try reflexivity; try discriminate; lia.
  - assert (N95 : ~ (100 * Z.of_nat (success_count s)
                     < 95 * Z.of_nat (total_requests s))%Z)
      by (intros H; apply H95 in H; lra).
    destruct (Qlt_le_dec rate 99) as [L99|G99].
    + apply H99 in L99. split; split; try discriminate; lia.
    + assert (N99 : ~ (100 * Z.of_nat (success_count s)
                       < 99 * Z.of_nat (total_requests s))%Z)
        by (intros H; apply H99 in H; lra).
      split; split; try reflexivity; try discriminate; lia.
Qed.

Lemma success_insight_in_counts_witness :
  exists s,
    process_and_display_results mixed_results 1 = Returned (Summary s)
    /\ success_insight s = st_error
    /\ (100 * success_count s < 95 * total_requests s)%nat.
Proof.
  destruct (process_and_display_results mixed_results 1) as [[|s]|e] eqn:E;
    try (exfalso; vm_compute in E; discriminate).
  exists s. split; [reflexivity|].
  destruct (success_insight_in_counts mixed_results 1 s E) as [[_ H] _].
  assert (Hc : (100 * success_count s < 95 * total_requests s)%nat).
  { vm_compute in E. inversion E; subst s. vm_compute. lia. }
  split; [apply H; exact Hc | exact Hc].
Defined.

Lemma successful_all_iff results :
  length (successful_results (valid_results results)) = length results
  <-> forall g, In g results ->
        exists d, g = GDict d
          /\ dict_get d "response_time" <> VNone
          /\ truthy (dict_get_default d "success" (VBool false)) = true.
Proof.
  induction results as [|g l IH].
  - split; [intros _ g [] | reflexivity].
  - pose proof (length_valid_results l) as Hv.
    pose proof (filter_length_le
                  (fun r => truthy (dict_get_default r "success" (VBool false)))
                  (valid_results l)) as Hf.
    fold (successful_results (valid_results l)) in Hf.
    destruct g as [d|e].
    + rewrite valid_results_cons_dict.
      destruct (dict_get d "response_time") eqn:Er; cbn [is_not_None].
      1: { cbn [length]. split; [lia|].
           intros H. destruct (H (GDict d) (or_introl eq_refl))
             as (d' & Hd & Hn & _). inversion Hd; subst d'. congruence. }
      all: unfold successful_results at 1; cbn [List.filter];
        fold (successful_results (valid_results l));
        destruct (truthy (dict_get_default d "success" (VBool false))) eqn:Es;
        cbn [length];
        [ split;
          [ intros H; assert (Hl : length (successful_results (valid_results l))
                                   = length l) by lia;
            intros g [<-|Hg];
            [ exists d; split; [reflexivity|]; split;
              [rewrite Er; discriminate | exact Es]
            | apply IH; assumption ]
          | intros H; f_equal; apply IH; intros g Hg; apply H; right; exact Hg ]
        | split; [lia|];
          intros H; destruct (H (GDict d) (or_introl eq_refl))
            as (d' & Hd & _ & Ht); inversion Hd; subst d'; congruence ].
    + change (valid_results (GExc e :: l)) with (valid_results l).
      cbn [length]. split; [lia|].
      intros H. destruct (H (GExc e) (or_introl eq_refl)) as (d & Hd & _).
      discriminate Hd.
Qed.

(** X10.  The success rate shown is 100 exactly when every element of
    the result list is a result with a response time and a true
    success flag: one exception object, error, timeout or non-2xx
    response brings it below. *)
Theorem full_success_rate_iff results total_duration s :
  process_and_display_results results total_duration = Returned (Summary s) ->
  (success_rate s == 100
   <-> forall g, In g results ->
         exists d, g = GDict d
           /\ dict_get d "response_time" <> VNone
           /\ truthy (dict_get_default d "success" (VBool false)) = true).
Proof.
  intros Hp.
  destruct (process_summary_fields _ _ _ Hp)
    as (times & t & _ & _ & _ & _ & Htot & Hpos & Hsc & Hrate & _).
  rewrite <- successful_all_iff, <- Hsc, <- Htot, Hrate.
  pose proof (Q_of_nat_pos (total_requests s) ltac:(lia)) as Hq.
  split.
  - intros H.
    assert (E : Q_of_nat (success_count s) == Q_of_nat (total_requests s)).
    { assert (E2 : Q_of_nat (success_count s) / Q_of_nat (total_requests s)
                   == 1).
      { generalize dependent (Q_of_nat (success_count s)
                              / Q_of_nat (total_requests s)).
        intros x H. lra. }
      assert (E1 : Q_of_nat (success_count s)
                   == Q_of_nat (success_count s) / Q_of_nat (total_requests s)
                      * Q_of_nat (total_requests s)) by (field; lra).
      rewrite E1, E2. ring. }
    unfold Q_of_nat, Qeq in E. cbn in E. lia.
  - intros H. rewrite H. field. lra.
Qed.

Lemma full_success_rate_iff_witness :
  exists s,
    process_and_display_results mixed_results 1 = Returned (Summary s)
    /\ ~ success_rate s == 100.
Proof.
  destruct (process_and_display_results mixed_results 1) as [[|s]|e] eqn:E;
    try (exfalso; vm_compute in E; discriminate).
  exists s. split; [reflexivity|].
  intros H.
  pose proof (proj1 (full_success_rate_iff mixed_results 1 s E) H) as Hall.
  destruct (Hall (GExc (Exn ClientError "Session is closed")))
    as (d & Hd & _); [|discriminate Hd].
  do 4 right. left. reflexivity.
Defined.

Lemma fold_sum_bounds (l : list Q) (lo hi a : Q) :
  (forall x, In x l -> lo <= x <= hi) ->
  a + Q_of_nat (length l) * lo <= fold_left Qplus l a
  /\ fold_left Qplus l a <= a + Q_of_nat (length l) * hi.
Proof.
  revert a. induction l as [|x l IH]; intros a H.
  - cbn. change (Q_of_nat 0) with 0. split; lra.
  - cbn [fold_left length].
    destruct (IH (a + x) (fun y Hy => H y (or_intror Hy))) as [H1 H2].
    destruct (H x (or_introl eq_refl)) as [Hx1 Hx2].
    rewrite Q_of_nat_S. clear IH H.
    set (n := Q_of_nat (length l)) in *.
    set (sum := fold_left Qplus l (a + x)) in *. clearbody n sum.
    split; lra.
Qed.

(** X12.  In every summary the latency table is shown and the average
    response time lies between its minimum and its maximum. *)
Theorem mean_between_extremes results total_duration s :
  process_and_display_results results total_duration = Returned (Summary s) ->
  exists t,
    table s = Some t
    /\ Minimum t <= avg_response_time s <= Maximum t.
Proof.
  intros Hp.
  destruct (process_summary_fields _ _ _ Hp)
    as (times & t & _ & Hne & Hla & Havg & _ & _ & _ & _ & _ & _ & Htab & _).
  exists t. split; [exact Htab|].
  destruct (latency_analysis_returns times Hne)
    as (lo & hi & p50 & p95 & p99 & Hlo & Hhi & _ & _ & _ & Hla').
  rewrite Hla in Hla'. inversion Hla'; subst t; clear Hla'. cbn.
  rewrite Havg.
  destruct (fold_sum_bounds times lo hi 0) as [H1 H2].
  { intros x Hx. split;
      [eapply py_min_lower_bound | eapply py_max_upper_bound]; eassumption. }
  fold (py_sum times) in H1, H2.
  assert (Hn : 0 < Q_of_nat (length times))
    by (apply Q_of_nat_pos; destruct times; [congruence | cbn; lia]).
  clear Havg Hla Hlo Hhi.
  set (n := Q_of_nat (length times)) in *.
  set (sum := py_sum times) in *. clearbody n sum.
  split.
  - apply Qle_shift_div_l; [exact Hn | lra].
  - apply Qle_shift_div_r; [exact Hn | lra].
Qed.

Lemma mean_between_extremes_witness :
  exists s t,
    process_and_display_results mixed_results 1 = Returned (Summary s)
    /\ table s = Some t
    /\ Minimum t <= avg_response_time s <= Maximum t.
Proof.
  destruct (process_and_display_results mixed_results 1) as [[|s]|e] eqn:E;
    try (exfalso; vm_compute in E; discriminate).
  destruct (mean_between_extremes mixed_results 1 s E) as (t & Ht & Hb).
  exists s, t. split; [reflexivity|]. split; assumption.
Defined.

(** ** The cumulative chart *)

Lemma nth_cumulative_pct (times : list Q) (i : nat) :
  (i < length times)%nat ->
  nth i (cumulative_pct times) 0
  = Q_of_nat (i + 1) / Q_of_nat (length times) * 100.
Proof.
  intros Hi. unfold cumulative_pct, py_range.
  rewrite length_py_sorted, Nat2Z.id.
  rewrite (nth_indep _ 0 (Q_of_nat (0 + 1) / Q_of_nat (length times) * 100))
    by (rewrite length_map, length_seq; exact Hi).
  rewrite (map_nth (fun i => Q_of_nat (i + 1) / Q_of_nat (length times) * 100)
             (seq 0 (length times)) 0%nat i).
  rewrite seq_nth by exact Hi. reflexivity.
Qed.

(** X18.  The cumulative percentages of the chart of lines 348-349: one
    per value of the sample, each above 0 and at most 100, strictly
    increasing, the last one 100. *)
Theorem cumulative_pct_shape (times : list Q) :
  times <> [] ->
  let n := length times in
  length (cumulative_pct times) = n
  /\ (forall i, (i < n)%nat ->
        0 < nth i (cumulative_pct times) 0 <= 100)
  /\ (forall i j, (i < j < n)%nat ->
        nth i (cumulative_pct times) 0 < nth j (cumulative_pct times) 0)
  /\ nth (n - 1) (cumulative_pct times) 0 == 100.
Proof.
  intros Hne n.
  assert (Hn : (0 < n)%nat) by (unfold n; destruct times; [congruence | cbn; lia]).
  pose proof (Q_of_nat_pos n Hn) as Hq.
  assert (Hmono : forall a b, (a < b)%nat ->
            Q_of_nat a / Q_of_nat n * 100 < Q_of_nat b / Q_of_nat n * 100).
  { intros a b Hab.
    assert (Q_of_nat a < Q_of_nat b) by (unfold Q_of_nat, Qlt; cbn; lia).
    assert (Q_of_nat a / Q_of_nat n < Q_of_nat b / Q_of_nat n).
    { apply Qlt_shift_div_l; [exact Hq|].
      assert (E : Q_of_nat a / Q_of_nat n * Q_of_nat n == Q_of_nat a)
        by (field; lra).
      rewrite E. assumption. }
    lra. }
  assert (Hzero : Q_of_nat 0 / Q_of_nat n * 100 == 0)
    by (change (Q_of_nat 0) with 0; field; lra).
  assert (Hfull : Q_of_nat n / Q_of_nat n * 100 == 100) by (field; lra).
  split.
  { unfold cumulative_pct, py_range.
    rewrite length_map, length_seq, length_py_sorted, Nat2Z.id. reflexivity. }
  split; [|split].
  - intros i Hi. rewrite nth_cumulative_pct by exact Hi. fold n. split.
    + apply Qle_lt_trans with (Q_of_nat 0 / Q_of_nat n * 100);
        [rewrite Hzero; lra | apply Hmono; lia].
    + destruct (Nat.eq_dec (i + 1)%nat n) as [->|Hlt]; [rewrite Hfull; lra|].
      apply Qle_trans with (Q_of_nat n / Q_of_nat n * 100);
        [apply Qlt_le_weak, Hmono; lia | rewrite Hfull; lra].
  - intros i j Hij. rewrite !nth_cumulative_pct by (fold n; lia). fold n.
    apply Hmono. lia.
  - rewrite nth_cumulative_pct by (fold n; lia). fold n.
    replace (n - 1 + 1)%nat with n by lia. exact Hfull.
Qed.

Lemma cumulative_pct_shape_witness :
  length (cumulative_pct thirty_samples) = 30%nat
  /\ nth 29 (cumulative_pct thirty_samples) 0 == 100.
Proof.
  destruct (cumulative_pct_shape thirty_samples) as (Hl & _ & _ & Hlast);
    [discriminate|].
  split; [exact Hl | exact Hlast].
Defined.

(** ** The count of status codes *)

Lemma py_eq_sym (a b : pyval) : py_eq a b = py_eq b a.
Proof.
  destruct a, b; cbn; try reflexivity;
    try (apply eq_true_iff_eq; rewrite !Qeq_bool_iff;
         split; intros H; symmetry; exact H).
  apply String.eqb_sym.
Qed.

Lemma py_eq_trans (a b c : pyval) :
  py_eq a b = true -> py_eq b c = true -> py_eq a c = true.
Proof.
  destruct a, b, c; cbn; try discriminate; try reflexivity;
    try (intros H1 H2; apply Qeq_bool_iff in H1, H2; apply Qeq_bool_iff;
         etransitivity; eassumption).
  intros H1 H2. apply String.eqb_eq in H1, H2. apply String.eqb_eq. congruence.
Qed.

Lemma counts_get_set (c : counts) (key k : pyval) (n dflt : nat) :
  counts_get (counts_set c key n) k dflt
  = if py_eq key k then n else counts_get c k dflt.
Proof.
  induction c as [|[k0 m] rest IH]; cbn; [reflexivity|].
  destruct (py_eq k0 key) eqn:E0; cbn.
  - destruct (py_eq k0 k) eqn:E1.
    + rewrite (py_eq_trans key k0 k); [reflexivity | | exact E1].
      rewrite py_eq_sym. exact E0.
    + destruct (py_eq key k) eqn:E2; [|reflexivity].
      rewrite (py_eq_trans k0 key k E0 E2) in E1. discriminate.
  - rewrite IH. destruct (py_eq k0 k) eqn:E1; [|reflexivity].
    destruct (py_eq key k) eqn:E2; [|reflexivity].
    rewrite (py_eq_trans k0 k key E1) in E0; [discriminate|].
    rewrite py_eq_sym. exact E2.
Qed.

Lemma counts_get_equal_keys (c : counts) (k k' : pyval) (dflt : nat) :
  py_eq k k' = true -> counts_get c k dflt = counts_get c k' dflt.
Proof.
  intros E. induction c as [|[k0 m] rest IH]; cbn; [reflexivity|].
  rewrite IH.
  destruct (py_eq k0 k) eqn:E0.
  - rewrite (py_eq_trans k0 k k' E0 E). reflexivity.
  - destruct (py_eq k0 k') eqn:E1; [|reflexivity].
    rewrite (py_eq_trans k0 k' k E1) in E0; [discriminate|].
    rewrite py_eq_sym. exact E.
Qed.

Lemma counts_total_set (c : counts) (key : pyval) :
  list_sum (map snd (counts_set c key (counts_get c key 0 + 1)))
  = (list_sum (map snd c) + 1)%nat.
Proof.
  unfold list_sum.
  induction c as [|[k0 m] rest IH]; [reflexivity|].
  cbn [counts_set counts_get].
  destruct (py_eq k0 key); cbn [map snd fold_right]; [lia|].
  rewrite IH. lia.
Qed.

(** X17.  The count of status codes of lines 282-285: the counts add up
    to the number of valid results, and the count found under a status
    is the number of valid results with that status. *)
Theorem status_counts_tally (valid : list dict) :
  list_sum (map snd (status_counts valid)) = length valid
  /\ forall key,
       counts_get (status_counts valid) key 0
       = length (List.filter
                   (fun r =>
                      py_eq (dict_get_default r "status" (VStr "unknown")) key)
                   valid).
Proof.
  induction valid as [|r valid [IH1 IH2]] using rev_ind.
  - split; [reflexivity | intros key; reflexivity].
  - unfold status_counts in *. rewrite fold_left_app. cbn [fold_left].
    split.
    + rewrite counts_total_set, IH1, length_app. reflexivity.
    + intros key.
      rewrite counts_get_set, Stdlib.Lists.List.filter_app, length_app.
      cbn [List.filter].
      destruct (py_eq (dict_get_default r "status" (VStr "unknown")) key)
        eqn:E; cbn [length].
      * rewrite (counts_get_equal_keys _ _ key 0 E), IH2. reflexivity.
      * rewrite IH2. lia.
Qed.

(** ** The whole test: [run_stress_test] *)

(** The result of a task, by the status it reports. *)
Lemma fetch_result_cases w url timeout delay t :
  exists d,
    fst (fetch_with_metrics w url timeout delay t) = Returned d
    /\ (dict_get d "response_time" = VNone
        <-> d !! "status" = Some (VStr "error"))
    /\ (d !! "status" = Some (VStr "timeout") -> d = timeout_result timeout).
Proof.
  rewrite fetch_by_exchange.
  destruct (http_exchange _ _ _ _) as [[[r c]|[cls msg]] u];
    [|destruct cls]; eexists; (split; [reflexivity|]);
    (split; [split; intros H; first [discriminate H | reflexivity]
            | intros H; first [discriminate H | reflexivity]]).
Qed.

Lemma run_load_test_results env url concurrent_users requests_per_user
    timeout delay t :
  fst (run_load_test env url concurrent_users requests_per_user timeout
         delay t)
  = Returned
      (map (fun i => gathered_of
                       (fst (fetch_with_metrics (env i) url timeout delay t)))
           (py_range (concurrent_users * requests_per_user))).
Proof.
  unfold run_load_test, asyncio_gather. cbn [fst]. rewrite map_map.
  reflexivity.
Qed.

(** The aggregator never raises on what the runner returns. *)
Lemma process_on_run env url concurrent_users requests_per_user timeout
    delay t total_duration results :
  fst (run_load_test env url concurrent_users requests_per_user timeout
         delay t) = Returned results ->
  exists d, process_and_display_results results total_duration = Returned d.
Proof.
  intros Hr. destruct (response_times_of_run _ _ _ _ _ _ _ _ Hr) as [times Ht].
  destruct (valid_results results) as [|d l] eqn:Ev.
  - exists NoValidResponses. unfold process_and_display_results.
    rewrite Ev. reflexivity.
  - destruct (process_returns results total_duration times)
      as (s & tb & Hp & _); [rewrite Ev; exact Ht | rewrite Ev; discriminate|].
    exists (Summary s). exact Hp.
Qed.

Lemma run_stress_test_completes env url concurrent_users requests_per_user
    timeout delay t :
  exists results end_time d,
    run_load_test env url concurrent_users requests_per_user timeout delay t
    = (Returned results, end_time)
    /\ process_and_display_results results (end_time - t) = Returned d
    /\ run_stress_test env url concurrent_users requests_per_user timeout
         delay t = Completed d.
Proof.
  unfold run_stress_test.
  destruct (run_load_test env url concurrent_users requests_per_user timeout
              delay t) as [o end_time] eqn:Er.
  pose proof (run_load_test_results env url concurrent_users
                requests_per_user timeout delay t) as Hres.
  rewrite Er in Hres. cbn [fst] in Hres. subst o.
  destruct (process_on_run env url concurrent_users requests_per_user timeout
              delay t (end_time - t) _ ltac:(rewrite Er; reflexivity))
    as [d Hd].
  eexists. exists end_time, d. split; [reflexivity|].
  split; [exact Hd|]. rewrite Hd. reflexivity.
Qed.

(** X6.  On the result list of any run, none of the computations of the
    aggregator raises: every response time it reads is a number,
    [statistics.quantiles] has its two data points and the cut points of
    index 94 and 98 whenever it is called, and [mean], [median], [max]
    and [min] are never given an empty sample.  (The calls that draw
    widgets and charts are not part of this statement.) *)
Theorem metrics_never_raise_on_run env url concurrent_users
    requests_per_user timeout delay t total_duration :
  exists results d,
    fst (run_load_test env url concurrent_users requests_per_user timeout
           delay t) = Returned results
    /\ process_and_display_results results total_duration = Returned d.
Proof.
  eexists.
  destruct (process_on_run env url concurrent_users requests_per_user timeout
              delay t total_duration _ eq_refl) as [d Hd].
  exists d. split; [reflexivity | exact Hd].
Qed.

Lemma valid_results_of_tasks_nil (env : nat -> world) url timeout delay t
    (indices : list nat) :
  valid_results
    (map (fun i => gathered_of
                     (fst (fetch_with_metrics (env i) url timeout delay t)))
         indices) = []
  <-> forall i, In i indices ->
        status_of (fetch_with_metrics (env i) url timeout delay t)
        = Some (VStr "error").
Proof.
  induction indices as [|i l IH]; [split; [intros _ i [] | reflexivity]|].
  cbn [map]. unfold status_of at 1.
  destruct (fetch_result_cases (env i) url timeout delay t)
    as (d & Hd & Hnone & _).
  rewrite Hd. cbn [gathered_of]. rewrite valid_results_cons_dict.
  destruct (dict_get d "response_time") eqn:E; cbn [is_not_None].
  1: { rewrite IH. split.
       - intros H j [<-|Hj]; [|apply H, Hj].
         unfold status_of. rewrite Hd. apply Hnone. reflexivity.
       - intros H j Hj. apply H. right. exact Hj. }
  all: split; [discriminate|];
    intros H; specialize (H i (or_introl eq_refl));
    unfold status_of in H; rewrite Hd in H; apply Hnone in H; discriminate H.
Qed.

(** X8.  A stress test ends with "No valid responses" exactly when every
    dispatched request ended with status "error" (in particular when no
    request is dispatched); one timeout or one response of any status is
    enough for a summary. *)
Theorem no_data_iff_all_errors env url concurrent_users requests_per_user
    timeout delay t :
  run_stress_test env url concurrent_users requests_per_user timeout delay t
  = Completed NoValidResponses
  <-> forall i, (i < Z.to_nat (concurrent_users * requests_per_user))%nat ->
        status_of (fetch_with_metrics (env i) url timeout delay t)
        = Some (VStr "error").
Proof.
  destruct (run_stress_test_completes env url concurrent_users
              requests_per_user timeout delay t)
    as (results & end_time & d & Hr & Hp & ->).
  pose proof (run_load_test_results env url concurrent_users
                requests_per_user timeout delay t) as Hres.
  rewrite Hr in Hres. cbn [fst] in Hres. inversion Hres as [Hresults].
  transitivity (valid_results results = []).
  - rewrite <- (process_no_data_iff results (end_time - t)), Hp.
    split; intros H; inversion H; reflexivity.
  - rewrite Hresults, valid_results_of_tasks_nil. unfold py_range.
    split; intros H i Hi; apply H.
    + apply in_seq. lia.
    + apply in_seq in Hi. lia.
Qed.

Lemma fold_min_In (l : list Q) (x : Q) :
  let lo := fold_left (fun m y => if Qle_bool m y then m else y) l x in
  lo = x \/ In lo l.
Proof.
  revert x. induction l as [|z l IH]; intros x; cbn; [left; reflexivity|].
  destruct (Qle_bool x z).
  - destruct (IH x) as [H|H]; [left; exact H | right; right; exact H].
  - destruct (IH z) as [H|H]; [right; left; symmetry; exact H
                              | right; right; exact H].
Qed.

Lemma py_min_In (l : list Q) (lo : Q) : py_min l = Returned lo -> In lo l.
Proof.
  destruct l as [|x l]; cbn; [discriminate|].
  intros H. inversion H; subst; clear H.
  destruct (fold_min_In l x) as [H|H]; [left; symmetry; exact H | right; exact H].
Qed.

(** When all the values of the sample are equal, every row of the table
    is that value. *)
Lemma constant_sample_rows (times : list Q) (c : Q) :
  times <> [] -> (forall x, In x times -> x == c) ->
  exists t,
    latency_analysis times = Returned t
    /\ Minimum t == c /\ Median t == c /\ P95 t == c /\ P99 t == c
    /\ Maximum t == c.
Proof.
  intros Hne Hc.
  destruct (latency_analysis_returns times Hne)
    as (lo & hi & p50 & p95 & p99 & Hlo & Hhi & Hmed & H95 & H99 & Hla).
  eexists. split; [exact Hla|]. cbn.
  set (n := Z.of_nat (length times)).
  assert (Hn : (1 <= n)%Z)
    by (unfold n; destruct times; [congruence | cbn; lia]).
  assert (Hs : forall k : Z, (0 <= k < n)%Z ->
             nth (Z.to_nat k) (py_sorted times) 0 == c).
  { intros k Hk. apply Hc, In_py_sorted, nth_In.
    rewrite length_py_sorted. lia. }
  assert (Hhic : hi == c) by (apply Hc; eapply py_max_In; exact Hhi).
  assert (Hloc : lo == c) by (apply Hc; eapply py_min_In; exact Hlo).
  split; [exact Hloc|]. split; [|split; [|split; [|exact Hhic]]].
  - rewrite (median_value times Hne) in Hmed. cbv zeta in Hmed.
    fold n in Hmed.
    assert (Hhalf : (0 <= n / 2 < n)%Z).
    { split; [apply Z.div_pos; lia | apply Z.div_lt_upper_bound; lia]. }
    destruct (Z.eqb_spec (n mod 2) 1) as [Hodd|Heven];
      inversion Hmed; subst p50; clear Hmed.
    + apply Hs. lia.
    + assert (n mod 2 = 0)%Z by (pose proof (Z.mod_pos_bound n 2); lia).
      assert (n = 2 * (n / 2))%Z by (pose proof (Z.div_mod n 2); lia).
      rewrite (Hs (n / 2 - 1)%Z), (Hs (n / 2)%Z) by lia. field.
  - destruct (p95_of_value times hi Hhi) as (p & Hp & Hsmall & Hlarge).
    fold n in Hsmall, Hlarge. rewrite H95 in Hp. inversion Hp; subst p.
    destruct (Z.lt_ge_cases n 20) as [H20|H20].
    + rewrite (Hsmall H20). exact Hhic.
    + rewrite (Hlarge H20). unfold interpolate.
      assert (Hj : (1 <= 95 * (n + 1) / 100 <= n - 1)%Z).
      { pose proof (Z.div_mod (95 * (n + 1)) 100 ltac:(lia)).
        pose proof (Z.mod_pos_bound (95 * (n + 1)) 100 ltac:(lia)). lia. }
      rewrite (Hs (95 * (n + 1) / 100 - 1)%Z), (Hs (95 * (n + 1) / 100)%Z)
        by lia.
      ring.
  - destruct (p99_of_value times hi Hhi) as (p & Hp & Hsmall & Hlarge).
    fold n in Hsmall, Hlarge. rewrite H99 in Hp. inversion Hp; subst p.
    destruct (Z.lt_ge_cases n 50) as [H50|H50].
    + rewrite (Hsmall H50). exact Hhic.
    + rewrite (Hlarge H50). unfold interpolate.
      set (j := Z.min (n - 1) (99 * (n + 1) / 100)).
      assert (Hj : (1 <= j <= n - 1)%Z).
      { unfold j. pose proof (Z.div_mod (99 * (n + 1)) 100 ltac:(lia)).
        pose proof (Z.mod_pos_bound (99 * (n + 1)) 100 ltac:(lia)). lia. }
      rewrite (Hs (j - 1)%Z), (Hs j) by lia.
      ring.
Qed.

Lemma valid_results_all_timeout (env : nat -> world) url timeout delay t
    (indices : list nat) :
  (forall i, In i indices ->
     status_of (fetch_with_metrics (env i) url timeout delay t)
     = Some (VStr "timeout")) ->
  valid_results
    (map (fun i => gathered_of
                     (fst (fetch_with_metrics (env i) url timeout delay t)))
         indices)
  = map (fun _ => timeout_result timeout) indices.
Proof.
  induction indices as [|i l IH]; intros H; [reflexivity|].
  cbn [map].
  destruct (fetch_result_cases (env i) url timeout delay t)
    as (d & Hd & _ & Htimeout).
  pose proof (H i (or_introl eq_refl)) as Hi.
  unfold status_of in Hi. rewrite Hd in Hi |- *. cbn [gathered_of].
  rewrite (Htimeout Hi), valid_results_cons_dict.
  change (dict_get (timeout_result timeout) "response_time")
    with (VInt (timeout * 1000)).
  cbn [is_not_None]. f_equal. apply IH. intros j Hj. apply H. right. exact Hj.
Qed.

Lemma timeout_results_sample (timeout : Z) (indices : list nat) :
  successful_results (map (fun _ => timeout_result timeout) indices) = []
  /\ response_times (map (fun _ => timeout_result timeout) indices)
     = Returned (map (fun _ => inject_Z (timeout * 1000)) indices).
Proof.
  induction indices as [|i l [IH1 IH2]]; [split; reflexivity|].
  cbn [map]. split.
  - unfold successful_results in *. cbn [List.filter].
    change (dict_get_default (timeout_result timeout) "success" (VBool false))
      with (VBool false).
    cbn [truthy]. exact IH1.
  - rewrite response_times_cons, IH2. reflexivity.
Qed.

(** X15.  When every request of a run times out, a summary is shown (not
    "No valid responses") with no success, a success rate of 0 in the
    error box, and the sentinel [timeout * 1000] as average and as every
    row of the latency table. *)
Theorem all_timeouts_summary env url concurrent_users requests_per_user
    timeout delay t :
  (1 <= concurrent_users * requests_per_user)%Z ->
  (forall i, (i < Z.to_nat (concurrent_users * requests_per_user))%nat ->
     status_of (fetch_with_metrics (env i) url timeout delay t)
     = Some (VStr "timeout")) ->
  let sentinel := inject_Z (timeout * 1000) in
  exists s tb,
    run_stress_test env url concurrent_users requests_per_user timeout
      delay t = Completed (Summary s)
    /\ success_count s = 0%nat
    /\ success_rate s == 0
    /\ success_insight s = st_error
    /\ avg_response_time s == sentinel
    /\ table s = Some tb
    /\ Minimum tb == sentinel /\ Median tb == sentinel
    /\ P95 tb == sentinel /\ P99 tb == sentinel /\ Maximum tb == sentinel.
Proof.
  intros Hn Hall sentinel.
  destruct (run_stress_test_completes env url concurrent_users
              requests_per_user timeout delay t)
    as (results & end_time & d & Hr & Hp & ->).
  pose proof (run_load_test_results env url concurrent_users
                requests_per_user timeout delay t) as Hres.
  rewrite Hr in Hres. cbn [fst] in Hres. inversion Hres as [Hresults].
  set (indices := py_range (concurrent_users * requests_per_user)) in *.
  assert (Hind : indices <> []).
  { unfold indices, py_range.
    destruct (Z.to_nat (concurrent_users * requests_per_user)) eqn:E;
      [lia | discriminate]. }
  assert (Hvalid : valid_results results
                   = map (fun _ => timeout_result timeout) indices).
  { rewrite Hresults. apply valid_results_all_timeout.
    intros i Hi. apply Hall. unfold indices, py_range in Hi.
    apply in_seq in Hi. lia. }
  destruct (timeout_results_sample timeout indices) as [Hsucc Htimes].
  set (times := map (fun _ : nat => sentinel) indices).
  assert (Hne : times <> [])
    by (unfold times; destruct indices; [congruence | discriminate]).
  assert (Hconst : forall x, In x times -> x == sentinel).
  { intros x Hx. unfold times in Hx. apply in_map_iff in Hx as [i [<- _]].
    reflexivity. }
  destruct (process_returns results (end_time - t) times)
    as (s & tb & Hp' & Htot & Hsc & Hrate & Hsample & Htab & Hla).
  { rewrite Hvalid. exact Htimes. }
  { rewrite Hvalid. destruct indices; [congruence | discriminate]. }
  rewrite Hp in Hp'. inversion Hp'; subst d; clear Hp'.
  destruct (process_summary_fields _ _ _ Hp)
    as (times' & tb' & _ & _ & _ & Havg & _ & Hpos & _ & _ & _ & Hsample'
        & _ & Hins & _).
  rewrite Hsample in Hsample'. subst times'.
  destruct (constant_sample_rows times sentinel Hne Hconst)
    as (tb0 & Hla0 & Hrows).
  rewrite Hla in Hla0. inversion Hla0; subst tb0; clear Hla0.
  rewrite Hvalid, Hsucc in Hsc. cbn [length] in Hsc.
  assert (Hzero : success_rate s == 0).
  { rewrite Hrate, Hsc. change (Q_of_nat 0) with 0. field.
    apply Q_of_nat_nonzero. lia. }
  exists s, tb. split; [reflexivity|]. split; [exact Hsc|].
  split; [exact Hzero|]. split.
  { rewrite Hins. destruct (Qlt_le_dec (success_rate s) 95) as [_|H];
      [reflexivity | rewrite Hzero in H; lra]. }
  split.
  { rewrite Havg.
    destruct (fold_sum_bounds times sentinel sentinel 0) as [H1 H2].
    { intros x Hx. rewrite (Hconst x Hx). split; lra. }
    fold (py_sum times) in H1, H2.
    assert (Hq : 0 < Q_of_nat (length times))
      by (apply Q_of_nat_pos; destruct times; [congruence | cbn; lia]).
    clear Hla Hsample Hconst Hrows.
    set (m := Q_of_nat (length times)) in *.
    set (sum := py_sum times) in *. clearbody m sum.
    apply Qle_antisym.
    - apply Qle_shift_div_r; [exact Hq | lra].
    - apply Qle_shift_div_l; [exact Hq | lra]. }
  split; [exact Htab | exact Hrows].
Qed.

Lemma all_timeouts_summary_witness :
  exists s tb,
    run_stress_test (fun _ => silent_world) "https://example.com" 10 5 1 0 0
    = Completed (Summary s)
    /\ success_count s = 0%nat
    /\ success_rate s == 0
    /\ success_insight s = st_error
    /\ avg_response_time s == inject_Z 1000
    /\ table s = Some tb
    /\ Minimum tb == inject_Z 1000 /\ Median tb == inject_Z 1000
    /\ P95 tb == inject_Z 1000 /\ P99 tb == inject_Z 1000
    /\ Maximum tb == inject_Z 1000.
Proof.
  apply (all_timeouts_summary (fun _ => silent_world) "https://example.com"
           10 5 1 0 0).
  - lia.
  - intros i _. reflexivity.
Defined.

(** A task that succeeded has a response time. *)
Lemma successful_task_is_valid w url timeout delay t :
  exists d,
    fst (fetch_with_metrics w url timeout delay t) = Returned d
    /\ (truthy (dict_get_default d "success" (VBool false)) = true ->
        is_not_None (dict_get d "response_time") = true).
Proof.
  rewrite fetch_by_exchange.
  destruct (http_exchange _ _ _ _) as [[[r c]|[cls msg]] u];
    [|destruct cls]; eexists; (split; [reflexivity|]);
    intros H; first [reflexivity | discriminate H].
Qed.

Lemma successful_tasks_count (env : nat -> world) url timeout delay t
    (indices : list nat) :
  length (successful_results
            (valid_results
               (map (fun i => gathered_of
                                (fst (fetch_with_metrics (env i) url timeout
                                        delay t)))
                    indices)))
  = length (List.filter
              (fun i => truthy (dict_get_default
                                  (result_of (fetch_with_metrics (env i) url
                                                timeout delay t))
                                  "success" (VBool false)))
              indices).
Proof.
  induction indices as [|i l IH]; [reflexivity|].
  cbn [map List.filter]. unfold result_of at 1.
  destruct (successful_task_is_valid (env i) url timeout delay t)
    as (d & Hd & Hvalid).
  rewrite Hd. cbn [gathered_of]. rewrite valid_results_cons_dict.
  destruct (truthy (dict_get_default d "success" (VBool false))) eqn:Es.
  - rewrite (Hvalid eq_refl). unfold successful_results at 1.
    cbn [List.filter]. rewrite Es. cbn [length]. f_equal. exact IH.
  - destruct (is_not_None (dict_get d "response_time")); [|exact IH].
    unfold successful_results at 1. cbn [List.filter]. rewrite Es. exact IH.
Qed.

(** X16.  In the summary of a run the total is the configured
    [concurrent_users * requests_per_user] and the number of successes
    is the number of tasks whose result has a true success flag. *)
Theorem summary_matches_run env url concurrent_users requests_per_user
    timeout delay t s :
  run_stress_test env url concurrent_users requests_per_user timeout delay t
  = Completed (Summary s) ->
  Z.of_nat (total_requests s) = (concurrent_users * requests_per_user)%Z
  /\ success_count s
     = length (List.filter
                 (fun i => truthy (dict_get_default
                                     (result_of (fetch_with_metrics (env i)
                                                   url timeout delay t))
                                     "success" (VBool false)))
                 (py_range (concurrent_users * requests_per_user))).
Proof.
  intros Hrun.
  destruct (run_stress_test_completes env url concurrent_users
              requests_per_user timeout delay t)
    as (results & end_time & d & Hr & Hp & Hc).
  rewrite Hrun in Hc. inversion Hc; subst d; clear Hc.
  pose proof (run_load_test_results env url concurrent_users
                requests_per_user timeout delay t) as Hres.
  rewrite Hr in Hres. cbn [fst] in Hres. inversion Hres as [Hresults].
  destruct (process_summary_fields _ _ _ Hp)
    as (times & tb & _ & _ & _ & _ & Htot & Hpos & Hsc & _).
  split.
  - rewrite Htot, Hresults, length_map. unfold py_range. rewrite length_seq.
    rewrite Hresults, length_map in Hpos. unfold py_range in Hpos.
    rewrite length_seq in Hpos. lia.
  - rewrite Hsc, Hresults. apply successful_tasks_count.
Qed.

Lemma summary_matches_run_witness :
  exists s,
    run_stress_test one_slow "https://example.com" 10 5 10 0 0
    = Completed (Summary s)
    /\ Z.of_nat (total_requests s) = 50%Z
    /\ success_count s = 50%nat.
Proof.
  destruct (run_stress_test one_slow "https://example.com" 10 5 10 0 0)
    as [|[|s]|msg] eqn:E; try (exfalso; vm_compute in E; discriminate).
  exists s. split; [reflexivity|].
  destruct (summary_matches_run one_slow "https://example.com" 10 5 10 0 0 s E)
    as [Htot Hsc].
  split; [exact Htot|]. rewrite Hsc. vm_compute. reflexivity.
Defined.
